(** * BERT_LLM_From_Scratch: the training loop of [train_bert.py]

    A shallow embedding of [BERTTraining.train] and of the part of
    [BERTTraining.__init__] it depends on, followed by the properties of the
    loss, the accuracy counters, the running average and the log lines.

    What is modelled, and how:
    - Python integers are [Z]; Python floats are Rocq's primitive binary64
      floats, which is what CPython uses; a Python exception is a [Raise]
      in the result type [Py.result].
    - Tensors are lists ([is_next]: [list Z]; [mask_ids]: [list (list Z)];
      logits: lists of rows of float32 scalars).  The float32 kernels of
      PyTorch (addition, the sum and the division of the mean reduction, the
      log-softmax term of the cross entropy, the comparison used by argmax)
      are an interface, [TorchFloat]: every theorem holds for every
      implementation of it.
    - The network, autograd and Adam are an interface, [Network].
    - The errors PyTorch itself raises (a label outside the classes,
      tensors whose sizes disagree) are not part of the model;
      [accepted] states the batches on which none occurs.
    - [print] appends the evaluated f-string to [stdout]. *)

From Stdlib Require Import String Ascii.
From Stdlib Require Import ZArith List Bool Lia.
From Stdlib Require Import Floats.PrimFloat Numbers.Cyclic.Int63.Uint63.
Import ListNotations.
Open Scope Z_scope.

(** ** Python values and exceptions *)

Module Py.

Inductive exn : Type :=
| ZeroDivisionError.

Inductive result (A : Type) : Type :=
  | Return (a : A)
  | Raise (e : exn).
Arguments Return {A} a.
Arguments Raise {A} e.

Definition bind {A B : Type} (r : result A) (k : A -> result B) : result B :=
  match r with
  | Return a => k a
  | Raise e => Raise e
  end.

(** A Python number: [avg_loss] starts as the int [0] and becomes a float
    with the first [+= loss.item()]; the counters stay ints. *)
Inductive num : Type :=
  | PyInt (z : Z)
  | PyFloat (f : float).

(** [float(z)]: exact for [|z| < 2^53], which covers every batch index and
    counter a run can reach. *)
Definition float_of_int (z : Z) : float :=
  if z <? 0 then PrimFloat.opp (PrimFloat.of_uint63 (Uint63.of_Z (- z)))
  else PrimFloat.of_uint63 (Uint63.of_Z z).

Definition to_float (x : num) : float :=
  match x with
  | PyInt z => float_of_int z
  | PyFloat f => f
  end.

(** [x + y] *)
Definition add (x y : num) : num :=
  match x, y with
  | PyInt a, PyInt b => PyInt (a + b)
  | _, _ => PyFloat (PrimFloat.add (to_float x) (to_float y))
  end.

(** [x * y] *)
Definition mul (x y : num) : num :=
  match x, y with
  | PyInt a, PyInt b => PyInt (a * b)
  | _, _ => PyFloat (PrimFloat.mul (to_float x) (to_float y))
  end.

Definition is_zero (x : num) : bool :=
  match x with
  | PyInt z => z =? 0
  | PyFloat f => PrimFloat.eqb f PrimFloat.zero
  end.

(** [x / y]: true division; a zero divisor raises, whatever the types. *)
Definition truediv (x y : num) : result num :=
  if is_zero y then Raise ZeroDivisionError
  else Return (PyFloat (PrimFloat.div (to_float x) (to_float y))).

(** [a % b] on ints: the sign of the result follows the divisor, as
    [Z.modulo] does; a zero divisor raises. *)
Definition mod_int (a b : Z) : result Z :=
  if b =? 0 then Raise ZeroDivisionError else Return (a mod b).

(** An evaluated f-string: literal text and replacement fields, each field
    with its value and its format specification (the text after [:],
    empty when there is none). *)
Inductive piece : Type :=
  | Lit (s : string)
  | Field (v : num) (spec : string).

Definition fstring : Type := list piece.

End Py.

Notation "x <- r ;; k" := (Py.bind r (fun x => k))
  (at level 100, r at next level, right associativity).

(** ** The PyTorch operations the loop uses *)

Module Torch.

(** float32 scalars and the kernels applied to them. *)
Class TorchFloat (T : Type) : Type := {
  (** [a + b] on 0-dim tensors *)
  t_add : T -> T -> T;
  (** the sum of the mean reduction *)
  t_sum : list T -> T;
  (** the division of that sum by the number of examples kept *)
  t_div_count : T -> Z -> T;
  (** [-log_softmax(x)[y]]: the cross-entropy term of one example *)
  t_nll : list T -> Z -> T;
  (** [t_above a b]: [a] is NaN and [b] is not, or [a > b] *)
  t_above : T -> T -> bool;
  (** [.item()] *)
  t_item : T -> float
}.

(** [torch.nn.CrossEntropyLoss(ignore_index=...)], default mean reduction,
    no class weights. *)
Record CrossEntropyLoss : Type := { ignore_index : Z }.

Section Ops.
Context {T : Type} `{TorchFloat T}.

Fixpoint argmax_from (best : T) (best_i i : Z) (l : list T) : Z :=
  match l with
  | [] => best_i
  | x :: l' =>
      if t_above x best then argmax_from x i (i + 1) l'
      else argmax_from best best_i (i + 1) l'
  end.

(** [x.argmax(dim=-1)] on one row: the index of the first maximal value, a
    NaN counting as maximal. *)
Definition argmax (row : list T) : Z :=
  match row with
  | [] => 0
  | x :: l => argmax_from x 0 1 l
  end.

(** The examples the criterion keeps: those whose target is not
    [ignore_index]. *)
Definition kept (c : CrossEntropyLoss) (input : list (list T))
    (target : list Z) : list (list T * Z) :=
  filter (fun xy => negb (snd xy =? ignore_index c)) (combine input target).

(** [criterion(input, target)]: examples whose target is [ignore_index] are
    skipped; the terms of the others are summed and divided by their
    number. *)
Definition cross_entropy (c : CrossEntropyLoss) (input : list (list T))
    (target : list Z) : T :=
  let k := kept c input target in
  t_div_count (t_sum (map (fun xy => t_nll (fst xy) (snd xy)) k))
              (Z.of_nat (length k)).

End Ops.

(** [(a == b).sum().item()] on 1-D integer tensors of one shape. *)
Definition eq_count (a b : list Z) : Z :=
  Z.of_nat (length (filter (fun pq => fst pq =? snd pq) (combine a b))).

(** [t.nelement()] of a 1-D tensor. *)
Definition nelement {A : Type} (t : list A) : Z := Z.of_nat (length t).

(** [t.view(-1)] and [t.view(-1, t.size(-1))]: the two leading axes
    flattened in row-major order. *)
Definition flatten {A : Type} (t : list (list A)) : list A := concat t.

(** [t != 0] *)
Definition ne_zero (t : list (list Z)) : list (list bool) :=
  map (map (fun y => negb (y =? 0))) t.

(** [t[mask]]: the elements of [t] where the boolean mask of the same shape
    is true, in row-major order. *)
Definition masked_select {A : Type} (t : list (list A))
    (mask : list (list bool)) : list A :=
  map fst (filter snd (combine (flatten t) (flatten mask))).

(** [mask.sum().item()] *)
Definition mask_sum (mask : list (list bool)) : Z :=
  Z.of_nat (length (filter (fun b : bool => b) (flatten mask))).

End Torch.

Import Torch.

(** ** The data source *)

(** One item of [data_loader]: the dict with the keys [token_embeddings],
    [segment_embeddings], [is_next] and [mask_ids]. *)
Record Batch : Type := {
  token_embeddings : list (list Z);
  segment_embeddings : list (list Z);
  is_next : list Z;
  mask_ids : list (list Z)
}.

(** ** The network, autograd and the optimizer *)

(** [P]: the parameters of [self.model]; [O]: the state of [Adam]. *)
Class Network (T P O : Type) : Type := {
  (** [self.model(token_embedding, segment_embedding)], in training mode or
      not: the NSP logits (batch x 2) and the MLM logits (batch x seq_len x
      vocab) *)
  forward : P -> bool -> list (list Z) -> list (list Z) ->
            list (list T) * list (list (list T));
  (** [Adam(self.model.parameters(), lr=, weight_decay=, betas=)] *)
  Adam : P -> float -> float -> float * float -> O;
  (** [self.optimizer.zero_grad(); loss.backward(); self.optimizer.step()]
      for the loss of one batch under the criterion *)
  adam_step : CrossEntropyLoss -> P -> O -> bool -> Batch -> P * O
}.

(** ** [class BERTTraining] *)

Section Training.
Context {T P O : Type} `{TorchFloat T} `{Network T P O}.

(** An [nn.Module]: its parameters and its training-mode flag. *)
Record Module_ : Type := {
  parameters : P;
  training : bool
}.

(** [model.train()] *)
Definition set_train (m : Module_) : Module_ :=
  {| parameters := parameters m; training := true |}.

Record BERTTraining : Type := {
  model : Module_;
  lr : float;
  weight_decay : float;
  betas : float * float;
  log_freq : Z;
  device : string;
  criterion : CrossEntropyLoss;
  optimizer : O
}.

(** [BERTTraining.__init__] (the line it prints, the number of parameters,
    is left out). *)
Definition init (model0 : Module_) (lr0 weight_decay0 : float)
    (betas0 : float * float) (log_freq0 : Z) (device0 : string)
    : BERTTraining :=
  {| model := model0;
     lr := lr0;
     weight_decay := weight_decay0;
     betas := betas0;
     log_freq := log_freq0;
     device := device0;
     criterion := {| ignore_index := 0 |};
     optimizer := Adam (parameters model0) lr0 weight_decay0 betas0 |}.

(** The local variables [train] accumulates over one epoch. *)
Record Metrics : Type := {
  avg_loss : Py.num;
  total_correct_NSP : Z;
  total_element_NSP : Z;
  total_correct_MLM : Z;
  total_element_MLM : Z
}.

(** Lines 28 to 32. *)
Definition metrics0 : Metrics :=
  {| avg_loss := Py.PyInt 0;
     total_correct_NSP := 0;
     total_element_NSP := 0;
     total_correct_MLM := 0;
     total_element_MLM := 0 |}.

(** Line 42. *)
Definition outputs (self : BERTTraining) (data : Batch)
    : list (list T) * list (list (list T)) :=
  forward (parameters (model self)) (training (model self))
          (token_embeddings data) (segment_embeddings data).

(** Line 44: [NSP_loss]. *)
Definition NSP_loss (self : BERTTraining) (NSP_output : list (list T))
    (data : Batch) : T :=
  cross_entropy (criterion self) NSP_output (is_next data).

(** Line 45: [MLM_loss]. *)
Definition MLM_loss (self : BERTTraining) (MLM_output : list (list (list T)))
    (data : Batch) : T :=
  cross_entropy (criterion self) (flatten MLM_output)
                (flatten (mask_ids data)).

(** Line 47: [loss]. *)
Definition batch_loss (self : BERTTraining) (data : Batch) : T :=
  let '(NSP_output, MLM_output) := outputs self data in
  t_add (NSP_loss self NSP_output data) (MLM_loss self MLM_output data).

(** Lines 50 to 52: the parameters and the optimizer after the step. *)
Definition optimize (self : BERTTraining) (data : Batch) : BERTTraining :=
  let '(p, o) :=
    adam_step (criterion self) (parameters (model self)) (optimizer self)
              (training (model self)) data in
  {| model := {| parameters := p; training := training (model self) |};
     lr := lr self;
     weight_decay := weight_decay self;
     betas := betas self;
     log_freq := log_freq self;
     device := device self;
     criterion := criterion self;
     optimizer := o |}.

(** Line 55: [correct_NSP]. *)
Definition correct_NSP (NSP_output : list (list T)) (data : Batch) : Z :=
  eq_count (map argmax NSP_output) (is_next data).

(** Lines 60 to 62: [correct_MLM]. *)
Definition correct_MLM (MLM_output : list (list (list T))) (data : Batch)
    : Z :=
  let MLM_pred := map (map argmax) MLM_output in
  let mask := ne_zero (mask_ids data) in
  eq_count (masked_select MLM_pred mask) (masked_select (mask_ids data) mask).

(** Lines 48 and 54 to 64: the accumulators after one batch. *)
Definition update_metrics (self : BERTTraining) (data : Batch) (m : Metrics)
    : Metrics :=
  let '(NSP_output, MLM_output) := outputs self data in
  let loss := batch_loss self data in
  {| avg_loss := Py.add (avg_loss m) (Py.PyFloat (t_item loss));
     total_correct_NSP := total_correct_NSP m + correct_NSP NSP_output data;
     total_element_NSP := total_element_NSP m + nelement (is_next data);
     total_correct_MLM := total_correct_MLM m + correct_MLM MLM_output data;
     total_element_MLM :=
       total_element_MLM m + mask_sum (ne_zero (mask_ids data)) |}.

(** [correct / total * 100] *)
Definition accuracy (correct total : Z) : Py.result Py.num :=
  q <- Py.truediv (Py.PyInt correct) (Py.PyInt total) ;;
  Py.Return (Py.mul q (Py.PyInt 100)).

(** Line 67: the f-string, its fields evaluated from left to right. *)
Definition batch_line (i : Z) (m : Metrics) (loss : T)
    : Py.result Py.fstring :=
  running <- Py.truediv (avg_loss m) (Py.PyInt (i + 1)) ;;
  nsp <- accuracy (total_correct_NSP m) (total_element_NSP m) ;;
  mlm <- accuracy (total_correct_MLM m) (total_element_MLM m) ;;
  Py.Return
    [Py.Lit "AvgLoss: "; Py.Field running "";
     Py.Lit " | AccuracyNSP: "; Py.Field nsp ".2f";
     Py.Lit " | AccuracyMLM: "; Py.Field mlm ".2f";
     Py.Lit " | Loss: "; Py.Field (Py.PyFloat (t_item loss)) ""].

(** Lines 66 and 67: what one iteration prints, if anything. *)
Definition batch_log (self : BERTTraining) (i : Z) (m : Metrics) (loss : T)
    : Py.result (option Py.fstring) :=
  r <- Py.mod_int i (log_freq self) ;;
  if r =? 0 then
    line <- batch_line i m loss ;;
    Py.Return (Some line)
  else Py.Return None.

(** Line 69: the f-string of the summary; [n] is [len(data_loader)]. *)
Definition epoch_line (epoch : Z) (n : Z) (m : Metrics)
    : Py.result Py.fstring :=
  total <- Py.truediv (avg_loss m) (Py.PyInt n) ;;
  nsp <- accuracy (total_correct_NSP m) (total_element_NSP m) ;;
  mlm <- accuracy (total_correct_MLM m) (total_element_MLM m) ;;
  Py.Return
    [Py.Lit "Epoch "; Py.Field (Py.PyInt epoch) "";
     Py.Lit " | Total-Loss: "; Py.Field total "";
     Py.Lit " | AccuracyNSP: "; Py.Field nsp ".2f";
     Py.Lit " | AccuracyMLM: "; Py.Field mlm ".2f"].

(** What a call leaves behind: the trainer, the accumulators, the lines
    printed, and whether it returned or raised. *)
Record Outcome : Type := {
  final_self : BERTTraining;
  final_metrics : Metrics;
  stdout : list Py.fstring;
  status : Py.result unit
}.

(** Lines 36 to 67: the [for] loop over [enumerate(data_loader)], from index
    [i] on. *)
Fixpoint train_loop (self : BERTTraining) (i : Z) (data_loader : list Batch)
    (m : Metrics) (out : list Py.fstring) : Outcome :=
  match data_loader with
  | [] =>
      {| final_self := self; final_metrics := m; stdout := out;
         status := Py.Return tt |}
  | data :: rest =>
      let loss := batch_loss self data in
      let m' := update_metrics self data m in
      let self' := optimize self data in
      match batch_log self' i m' loss with
      | Py.Raise e =>
          {| final_self := self'; final_metrics := m'; stdout := out;
             status := Py.Raise e |}
      | Py.Return None => train_loop self' (i + 1) rest m' out
      | Py.Return (Some line) =>
          train_loop self' (i + 1) rest m' (out ++ [line])
      end
  end.

(** [self] once [train] has put the model in training mode (line 34). *)
Definition started (self : BERTTraining) : BERTTraining :=
  {| model := set_train (model self);
     lr := lr self;
     weight_decay := weight_decay self;
     betas := betas self;
     log_freq := log_freq self;
     device := device self;
     criterion := criterion self;
     optimizer := optimizer self |}.

(** [BERTTraining.train(self, epoch, data_loader)]; the data source is the
    list of the batches it yields, and [len(data_loader)] their number. *)
Definition train (self : BERTTraining) (epoch : Z) (data_loader : list Batch)
    : Outcome :=
  let self0 := started self in
  let o := train_loop self0 0 data_loader metrics0 [] in
  match status o with
  | Py.Raise e => o
  | Py.Return _ =>
      match epoch_line epoch (Z.of_nat (length data_loader))
                       (final_metrics o) with
      | Py.Raise e =>
          {| final_self := final_self o; final_metrics := final_metrics o;
             stdout := stdout o; status := Py.Raise e |}
      | Py.Return line =>
          {| final_self := final_self o; final_metrics := final_metrics o;
             stdout := stdout o ++ [line]; status := Py.Return tt |}
      end
  end.

End Training.

(** ** The vocabulary of the properties *)

(** The number of indices below [n] that satisfy [p]. *)
Definition count_below (n : nat) (p : nat -> bool) : Z :=
  Z.of_nat (length (filter p (seq 0 n))).

(** The sum of a list of integers. *)
Definition zsum (l : list Z) : Z := fold_right Z.add 0 l.


(** Every row of [t] has [n] elements. *)
Definition rows_of_length {A : Type} (n : nat) (t : list (list A)) : Prop :=
  Forall (fun r => length r = n) t.

(** The sum Python's [avg_loss] accumulates: from [0], one addition per
    batch, in order. *)
Definition fsum (l : list float) : float :=
  fold_left PrimFloat.add l (Py.float_of_int 0).

(** [correct / total * 100] when [total] is not zero. *)
Definition percent (correct total : Z) : float :=
  PrimFloat.mul
    (PrimFloat.div (Py.float_of_int correct) (Py.float_of_int total))
    (Py.float_of_int 100).

(** The lines of [ls] whose index, counted from [i], is a multiple of
    [log_freq]. *)
Definition every_from (i : Z) (log_freq : Z) {A : Type} (ls : list A)
    : list A :=
  map snd
    (filter (fun kl => (i + Z.of_nat (fst kl)) mod log_freq =? 0)
            (combine (seq 0 (length ls)) ls)).

(** The lines of [ls] whose 0-based index is a multiple of [log_freq]. *)
Definition every (log_freq : Z) {A : Type} (ls : list A) : list A :=
  every_from 0 log_freq ls.

(** The format of a line: its literal text and, for each field, the format
    specification. *)
Definition shape (line : Py.fstring) : list (string + string) :=
  map (fun p => match p with
                | Py.Lit s => inl s
                | Py.Field _ spec => inr spec
                end) line.

(** The values of the fields of a line, from left to right. *)
Definition fields (line : Py.fstring) : list Py.num :=
  flat_map (fun p => match p with
                     | Py.Lit _ => []
                     | Py.Field v _ => [v]
                     end) line.

(** Reading a format such as ["Loss: {batch_loss} | Acc: {pct:.2f}"]: the
    text outside braces is literal; inside braces, a name and, after a
    colon, a format specification.  [lit] is the literal text read so
    far; [hole] is [None] outside braces and, inside, whether the colon has
    been passed and the specification read so far. *)
Fixpoint read_format (s : string) (lit : string)
    (hole : option (bool * string)) : list (string + string) :=
  match s with
  | EmptyString =>
      match lit with
      | EmptyString => []
      | _ => [inl lit]
      end
  | String c rest =>
      match hole with
      | None =>
          if Ascii.eqb c "{" then
            match lit with
            | EmptyString =>
                read_format rest EmptyString (Some (false, EmptyString))
            | _ =>
                inl lit
                  :: read_format rest EmptyString (Some (false, EmptyString))
            end
          else read_format rest (lit ++ String c EmptyString)%string None
      | Some (colon, spec) =>
          if Ascii.eqb c "}" then inr spec :: read_format rest EmptyString None
          else if colon then
            read_format rest lit
              (Some (true, (spec ++ String c EmptyString)%string))
          else if Ascii.eqb c ":" then read_format rest lit (Some (true, spec))
          else read_format rest lit hole
      end
  end.

Definition format_shape (s : string) : list (string + string) :=
  read_format s EmptyString None.

(** The two formats, as the specification of the logging surface writes
    them. *)
Definition batch_format : string :=
  "AvgLoss: {running_avg} | AccuracyNSP: {pct:.2f} | AccuracyMLM: {pct:.2f} | Loss: {batch_loss}".

Definition epoch_format : string :=
  "Epoch {epoch} | Total-Loss: {avg} | AccuracyNSP: {pct:.2f} | AccuracyMLM: {pct:.2f}".

(** [data] with other labels for the masked positions. *)
Definition with_mask_ids (data : Batch) (ids : list (list Z)) : Batch :=
  {| token_embeddings := token_embeddings data;
     segment_embeddings := segment_embeddings data;
     is_next := is_next data;
     mask_ids := ids |}.

(** The accuracy counters make sense: no more correct answers than
    answers. *)
Definition consistent (m : Metrics) : Prop :=
  0 <= total_correct_NSP m <= total_element_NSP m
  /\ 0 <= total_correct_MLM m <= total_element_MLM m.

(** No counter of [m'] is below its value in [m]. *)
Definition grows (m m' : Metrics) : Prop :=
  total_correct_NSP m <= total_correct_NSP m'
  /\ total_element_NSP m <= total_element_NSP m'
  /\ total_correct_MLM m <= total_correct_MLM m'
  /\ total_element_MLM m <= total_element_MLM m'.

(** The line of batch [i] when no division fails, from the accumulators [m]
    after that batch and its loss. *)
Definition logged_line (i : Z) (m : Metrics) (loss : float) : Py.fstring :=
  [Py.Lit "AvgLoss: ";
   Py.Field (Py.PyFloat (PrimFloat.div (Py.to_float (avg_loss m))
                                      (Py.float_of_int (i + 1)))) "";
   Py.Lit " | AccuracyNSP: ";
   Py.Field (Py.PyFloat (percent (total_correct_NSP m)
                                 (total_element_NSP m))) ".2f";
   Py.Lit " | AccuracyMLM: ";
   Py.Field (Py.PyFloat (percent (total_correct_MLM m)
                                 (total_element_MLM m))) ".2f";
   Py.Lit " | Loss: "; Py.Field (Py.PyFloat loss) ""].

(** The first batch of [data_loader], if there is one, leaves both
    denominators positive: it has an example and a masked position. *)
Definition healthy (m : Metrics) (data_loader : list Batch) : Prop :=
  match data_loader with
  | [] => True
  | data :: _ =>
      0 < total_element_NSP m + nelement (is_next data)
      /\ 0 < total_element_MLM m + mask_sum (ne_zero (mask_ids data))
  end.

Section Trajectory.
Context {T P O : Type} `{TorchFloat T} `{Network T P O}.
Local Abbreviation trainer := (@BERTTraining P O).

(** The trainer and the accumulators after the batches of [data_loader],
    logging apart. *)
Fixpoint run (self : trainer) (m : Metrics) (data_loader : list Batch)
    : trainer * Metrics :=
  match data_loader with
  | [] => (self, m)
  | data :: rest => run (optimize self data) (update_metrics self data m) rest
  end.

(** The scalar loss of each batch, [loss.item()], along the run. *)
Fixpoint losses (self : trainer) (data_loader : list Batch)
    : list float :=
  match data_loader with
  | [] => []
  | data :: rest =>
      t_item (batch_loss self data) :: losses (optimize self data) rest
  end.

(** The accumulators of an epoch after its first [n] batches. *)
Definition metrics_after (self : trainer) (data_loader : list Batch)
    (n : nat) : Metrics :=
  snd (run (started self) metrics0 (firstn n data_loader)).

(** The line of batch [i] of an epoch, as the specification describes it:
    running average of the losses so far, the two running accuracies, and
    the loss of the batch itself. *)
Definition line_at (self : trainer) (data_loader : list Batch)
    (i : nat) : Py.fstring :=
  let ls := losses (started self) data_loader in
  let m := metrics_after self data_loader (S i) in
  [Py.Lit "AvgLoss: ";
   Py.Field (Py.PyFloat (PrimFloat.div (fsum (firstn (S i) ls))
                                      (Py.float_of_int (Z.of_nat (S i))))) "";
   Py.Lit " | AccuracyNSP: ";
   Py.Field (Py.PyFloat (percent (total_correct_NSP m)
                                 (total_element_NSP m))) ".2f";
   Py.Lit " | AccuracyMLM: ";
   Py.Field (Py.PyFloat (percent (total_correct_MLM m)
                                 (total_element_MLM m))) ".2f";
   Py.Lit " | Loss: ";
   Py.Field (Py.PyFloat (nth i ls PrimFloat.nan)) ""].

(** The summary line of an epoch, as the specification describes it. *)
Definition summary_line (self : trainer) (epoch : Z)
    (data_loader : list Batch) : Py.fstring :=
  let ls := losses (started self) data_loader in
  let n := length data_loader in
  let m := metrics_after self data_loader n in
  [Py.Lit "Epoch "; Py.Field (Py.PyInt epoch) "";
   Py.Lit " | Total-Loss: ";
   Py.Field (Py.PyFloat (PrimFloat.div (fsum ls)
                                      (Py.float_of_int (Z.of_nat n)))) "";
   Py.Lit " | AccuracyNSP: ";
   Py.Field (Py.PyFloat (percent (total_correct_NSP m)
                                 (total_element_NSP m))) ".2f";
   Py.Lit " | AccuracyMLM: ";
   Py.Field (Py.PyFloat (percent (total_correct_MLM m)
                                 (total_element_MLM m))) ".2f"].

(** The trainer is as [__init__] builds it: the criterion ignores the
    label 0. *)
Definition constructed (self : trainer) : Prop :=
  criterion self = {| ignore_index := 0 |}.

(** The number of examples the criterion pairs: one per label. *)
Definition examples (input : list (list T)) (target : list Z) : nat :=
  Nat.min (length input) (length target).

(** The indices of the examples whose label is not [ignore]. *)
Definition labelled (ignore : Z) (n : nat) (target : list Z) : list nat :=
  filter (fun i => negb (nth i target 0 =? ignore)) (seq 0 n).

(** The cross-entropy terms of the examples [idx], summed and divided by
    their number. *)
Definition mean_over (input : list (list T)) (target : list Z)
    (idx : list nat) : T :=
  t_div_count
    (t_sum (map (fun i => t_nll (nth i input []) (nth i target 0)) idx))
    (Z.of_nat (length idx)).

(** The class predicted for example [i]. *)
Definition predicted_NSP (NSP_output : list (list T)) (i : nat) : Z :=
  argmax (nth i NSP_output []).


(** The label at position [s] of example [b]. *)
Definition label_at (ids : list (list Z)) (b s : nat) : Z :=
  nth s (nth b ids []) 0.


(** [self] with another log frequency. *)
Definition with_log_freq (self : trainer) (log_freq0 : Z) : trainer :=
  {| model := model self;
     lr := lr self;
     weight_decay := weight_decay self;
     betas := betas self;
     log_freq := log_freq0;
     device := device self;
     criterion := criterion self;
     optimizer := optimizer self |}.

(** The lines the loop would print from index [i] on, one per batch, were
    every batch logged. *)
Fixpoint lines_from (self : trainer) (i : Z) (data_loader : list Batch)
    (m : Metrics) : list Py.fstring :=
  match data_loader with
  | [] => []
  | data :: rest =>
      let m' := update_metrics self data m in
      logged_line i m' (t_item (batch_loss self data))
        :: lines_from (optimize self data) (i + 1) rest m'
  end.

End Trajectory.

(** ** [main] *)

(** The first batch of a data source has an example and a masked
    position. *)
Definition first_batch_ok (data_loader : list Batch) : Prop :=
  match data_loader with
  | [] => False
  | data :: _ =>
      is_next data <> []
      /\ Exists (Exists (fun y => y <> 0)) (mask_ids data)
  end.

(** The number of labels of [ids] that are not 0. *)
Definition masked_count (ids : list (list Z)) : Z :=
  Z.of_nat (length (filter (fun y => negb (y =? 0)) (concat ids))).

(** A line is a summary: it starts with the literal text ["Epoch "]. *)
Definition is_summary (line : Py.fstring) : bool :=
  match line with
  | Py.Lit s :: _ => String.eqb s "Epoch "
  | _ => false
  end.

(** The first field of a line. *)
Definition first_field (line : Py.fstring) : Py.num :=
  nth 0 (fields line) (Py.PyInt (-1)).

(** The last field of the line of a batch: [loss.item()]. *)
Definition loss_field (line : Py.fstring) : float :=
  Py.to_float (nth 3 (fields line) (Py.PyInt (-1))).

Section Main.
Context {T P O : Type} `{TorchFloat T} `{Network T P O}.
Local Abbreviation trainer := (@BERTTraining P O).

(** The batch is one on which no PyTorch call of the loop raises, given
    the outputs of the network: one row of NSP logits per [is_next] label
    and one row of MLM logits per [mask_ids] entry (else the criterion
    raises [ValueError], and the mask does not index the predictions), every
    label being a class of its row, [0 <= label < number of logits] (else
    the criterion raises [IndexError]); the tensors are rectangular. *)
Definition torch_accepts (NSP_output : list (list T))
    (MLM_output : list (list (list T))) (data : Batch) : Prop :=
  Forall2 (fun x y => 0 <= y < Z.of_nat (length x)) NSP_output (is_next data)
  /\ Forall2 (Forall2 (fun x y => 0 <= y < Z.of_nat (length x)))
             MLM_output (mask_ids data)
  /\ (exists classes, rows_of_length classes NSP_output)
  /\ (exists seq_len, rows_of_length seq_len (mask_ids data))
  /\ (exists vocab_size, Forall (rows_of_length vocab_size) MLM_output).

(** PyTorch accepts every batch of [data_loader], each with the outputs of
    the network at the step it is processed. *)
Fixpoint accepted (self : trainer) (data_loader : list Batch) : Prop :=
  match data_loader with
  | [] => True
  | data :: rest =>
      torch_accepts (fst (outputs self data)) (snd (outputs self data)) data
      /\ accepted (optimize self data) rest
  end.

(** What [__init__] stores and [train] only reads. *)
Definition settings (self : trainer)
    : float * float * (float * float) * Z * string * CrossEntropyLoss :=
  (lr self, weight_decay self, betas self, log_freq self, device self,
   criterion self).

(** Line 25: [print("Number of Parameters:", sum([...]))], from the
    [nelement()] of each parameter tensor of the model. *)
Definition parameters_line (nelements : list Z) : Py.fstring :=
  [Py.Lit "Number of Parameters:"; Py.Lit " ";
   Py.Field (Py.PyInt (fold_left Z.add nelements 0)) ""].

(** What a script leaves behind: the trainer, the lines printed, the file
    written by [torch.save] (its path and the parameters in it), and
    whether it returned or raised. *)
Record Run : Type := {
  trained : trainer;
  printed : list Py.fstring;
  saved : option (string * P);
  exit : Py.result unit
}.

(** Lines 99 and 100: [for epoch in range(epochs): trainer.train(epoch,
    train_loader)], from [epoch] on with [todo] epochs left;
    [train_loader epoch] is the batches the loader yields when it is
    iterated in that epoch (it shuffles). *)
Fixpoint epochs_loop (self : trainer) (train_loader : Z -> list Batch)
    (epoch : Z) (todo : nat) (out : list Py.fstring) : Run :=
  match todo with
  | 0%nat =>
      {| trained := self; printed := out; saved := None;
         exit := Py.Return tt |}
  | S todo' =>
      let r := train self epoch (train_loader epoch) in
      match status r with
      | Py.Raise e =>
          {| trained := final_self r; printed := out ++ stdout r;
             saved := None; exit := Py.Raise e |}
      | Py.Return _ =>
          epochs_loop (final_self r) train_loader (epoch + 1) todo'
                      (out ++ stdout r)
      end
  end.

(** Line 96: the trainer [main] builds, [bert] being a fresh module, in
    training mode; [lr=1e-3], [weight_decay=0.01], [betas=(0.9, 0.999)],
    [log_freq=500]. *)
Definition main_trainer (device0 : string) (bert : P) : trainer :=
  init {| parameters := bert; training := true |}
       0x1.0624dd2f1a9fcp-10%float 0x1.47ae147ae147bp-7%float
       (0x1.ccccccccccccdp-1%float, 0x1.ff7ced916872bp-1%float)
       500 device0.

(** [main], from what its lines 83 to 94 build with the rest of the
    repository: the device, the initialised network [bert], the sizes of
    its parameter tensors and the loader.  Line 74 gives the 30 epochs;
    lines 103 to 105 save the parameters and print the last line. *)
Definition main (device0 : string) (bert : P) (nelements : list Z)
    (train_loader : Z -> list Batch) : Run :=
  let epochs := 30%nat in
  let r := epochs_loop (main_trainer device0 bert) train_loader 0 epochs
                       [parameters_line nelements] in
  match exit r with
  | Py.Raise e => r
  | Py.Return _ =>
      {| trained := trained r;
         printed := printed r ++ [[Py.Lit "Training completed"]];
         saved := Some ("trained_model/bert.pth"%string,
                        parameters (model (trained r)));
         exit := Py.Return tt |}
  end.

(** The batches of [n] epochs from [epoch] on, in the order they are
    processed. *)
Definition all_batches (train_loader : Z -> list Batch) (epoch : Z)
    (n : nat) : list Batch :=
  concat (map (fun k => train_loader (epoch + Z.of_nat k)) (seq 0 n)).

End Main.

(** ** A small instance, for running the definitions *)

Module Toy.

(** binary64 floats stand for float32; the term of one example is the logit
    of its target class (no softmax), so that an example is a loss one can
    read off the input. *)
#[export] Instance toy_float : TorchFloat float := {
  t_add := PrimFloat.add;
  t_sum := fun l => fold_left PrimFloat.add l PrimFloat.zero;
  t_div_count := fun s n => PrimFloat.div s (Py.float_of_int n);
  t_nll := fun x y => nth (Z.to_nat y) x PrimFloat.nan;
  t_above := fun a b =>
    (PrimFloat.is_nan a && negb (PrimFloat.is_nan b)) || PrimFloat.ltb b a;
  t_item := fun x => x
}.

(** A vocabulary of 8 tokens. *)
Definition vocab : list Z := [0; 1; 2; 3; 4; 5; 6; 7].

(** A network without parameters to speak of ([P] counts the steps taken):
    the NSP logits of an example are its segment ids, and the MLM logits of
    a position give 1 to the token [t - 1] for the input token [t] and 0 to
    the others. *)
#[export] Instance toy_network : Network float Z unit := {
  forward := fun _ _ tokens segments =>
    (map (map Py.float_of_int) segments,
     map (map (fun t =>
       map (fun v => if v =? t - 1 then PrimFloat.one else PrimFloat.zero)
           vocab)) tokens);
  Adam := fun _ _ _ _ => tt;
  adam_step := fun _ p o _ _ => (p + 1, o)
}.

Definition trainer (log_freq0 : Z) : @BERTTraining Z unit :=
  init {| parameters := 0; training := false |}
       PrimFloat.one PrimFloat.zero (PrimFloat.one, PrimFloat.one)
       log_freq0 "cpu".

(** One example per batch; NSP logits [[0; c]] with [is_next = 1]; four
    positions, the third one masked, its input token predicting 5. *)
Definition batch (c : Z) : Batch :=
  {| token_embeddings := [[1; 1; 6; 1]];
     segment_embeddings := [[0; c]];
     is_next := [1];
     mask_ids := [[0; 0; 5; 0]] |}.

(** A batch without any masked position. *)
Definition unmasked : Batch :=
  {| token_embeddings := [[1; 1; 6; 1]];
     segment_embeddings := [[0; 1]];
     is_next := [1];
     mask_ids := [[0; 0; 0; 0]] |}.

(** Two examples, the first one with [is_next = 0]. *)
Definition pair : Batch :=
  {| token_embeddings := [[1; 1; 6; 1]; [1; 4; 1; 1]];
     segment_embeddings := [[0; 1]; [0; 2]];
     is_next := [0; 1];
     mask_ids := [[0; 0; 5; 0]; [0; 7; 0; 0]] |}.

(** Two examples whose NSP logits favour class 1 and class 0, labelled so:
    both are predicted correctly. *)
Definition both : Batch :=
  {| token_embeddings := [[1; 1; 6; 1]; [1; 4; 1; 1]];
     segment_embeddings := [[0; 1]; [3; 2]];
     is_next := [1; 0];
     mask_ids := [[0; 0; 5; 0]; [0; 7; 0; 0]] |}.

(** The three batches of the end-to-end scenario: losses 1, 2 and 3. *)
Definition epoch3 : list Batch := [batch 0; batch 1; batch 2].

(** A loader that yields the same three batches in every epoch. *)
Definition loader : Z -> list Batch := fun _ => epoch3.

(** A loader whose third epoch starts with a batch without masked
    position. *)
Definition loader_failing : Z -> list Batch :=
  fun epoch => if epoch =? 2 then unmasked :: epoch3 else epoch3.

End Toy.


(** ** Lists: pairing, selecting and counting by index *)

Lemma filter_combine_index {A B : Type} (f : A * B -> bool) (da : A) (db : B) :
  forall (a : list A) (b : list B),
    filter f (combine a b) =
    map (fun i => (nth i a da, nth i b db))
        (filter (fun i => f (nth i a da, nth i b db))
                (seq 0 (Nat.min (length a) (length b)))).
Proof.
  induction a as [|x a IH]; intros [|y b]; simpl; try reflexivity.
  rewrite <- seq_shift, filter_map_swap.
  destruct (f (x, y)); simpl; rewrite map_map, <- IH; reflexivity.
Qed.

Lemma count_combine_index {A B : Type} (f : A * B -> bool) (da : A) (db : B)
    (a : list A) (b : list B) :
  Z.of_nat (length (filter f (combine a b))) =
  count_below (Nat.min (length a) (length b))
              (fun i => f (nth i a da, nth i b db)).
Proof.
  unfold count_below.
  rewrite (filter_combine_index f da db), length_map. reflexivity.
Qed.

Lemma count_below_ext (n : nat) (p q : nat -> bool) :
  (forall i, (i < n)%nat -> p i = q i) -> count_below n p = count_below n q.
Proof.
  intros E. unfold count_below. f_equal. f_equal.
  apply filter_ext_in. intros i Hi. apply in_seq in Hi. apply E. lia.
Qed.

Lemma count_below_bounds (n : nat) (p : nat -> bool) :
  0 <= count_below n p <= Z.of_nat n.
Proof.
  unfold count_below. split; [lia|].
  pose proof (filter_length_le p (seq 0 n)) as L.
  rewrite length_seq in L. lia.
Qed.

Lemma list_index {A : Type} (d : A) (l : list A) :
  l = map (fun i => nth i l d) (seq 0 (length l)).
Proof.
  induction l as [|x l IH]; simpl; [reflexivity|].
  rewrite <- seq_shift, map_map. f_equal. exact IH.
Qed.




Lemma zsum_app (l l' : list Z) : zsum (l ++ l') = zsum l + zsum l'.
Proof. induction l as [|x l IH]; simpl; [reflexivity|]. rewrite IH. lia. Qed.


Lemma zsum_ext {A : Type} (f g : A -> Z) (l : list A) :
  (forall x, In x l -> f x = g x) -> zsum (map f l) = zsum (map g l).
Proof. intros E. f_equal. apply map_ext_in. exact E. Qed.

Lemma zsum_nonneg (l : list Z) : Forall (fun x => 0 <= x) l -> 0 <= zsum l.
Proof. induction 1; simpl; lia. Qed.


Lemma select_length {A : Type} (t : list (list A)) (mask : list (list bool)) :
  Z.of_nat (length (masked_select t mask)) <= mask_sum mask.
Proof.
  unfold masked_select, mask_sum. rewrite length_map.
  generalize (flatten t) (flatten mask). intros a.
  induction a as [|x a IH]; intros [|b l]; simpl; try lia.
  specialize (IH l). destruct b; simpl; lia.
Qed.

Lemma eq_count_bounds (a b : list Z) :
  0 <= eq_count a b <= Z.of_nat (length b).
Proof.
  unfold eq_count. split; [lia|].
  pose proof (filter_length_le (fun pq => fst pq =? snd pq) (combine a b)).
  rewrite length_combine in *. lia.
Qed.

Lemma eq_count_bounds_l (a b : list Z) :
  eq_count a b <= Z.of_nat (length a).
Proof.
  unfold eq_count.
  pose proof (filter_length_le (fun pq => fst pq =? snd pq) (combine a b)).
  rewrite length_combine in *. lia.
Qed.

Lemma flatten_ne_zero (ids : list (list Z)) :
  flatten (ne_zero ids) = map (fun y => negb (y =? 0)) (flatten ids).
Proof. unfold flatten, ne_zero. symmetry. apply concat_map. Qed.






(** ** The accuracy counters *)

Section Counters.
Context {T P O : Type} `{TorchFloat T} `{Network T P O}.
Local Abbreviation trainer := (@BERTTraining P O).

Lemma update_metrics_eq (self : trainer) (data : Batch) (m : Metrics) :
  update_metrics self data m =
  {| avg_loss :=
       Py.add (avg_loss m) (Py.PyFloat (t_item (batch_loss self data)));
     total_correct_NSP :=
       total_correct_NSP m + correct_NSP (fst (outputs self data)) data;
     total_element_NSP := total_element_NSP m + nelement (is_next data);
     total_correct_MLM :=
       total_correct_MLM m + correct_MLM (snd (outputs self data)) data;
     total_element_MLM :=
       total_element_MLM m + mask_sum (ne_zero (mask_ids data)) |}.
Proof. unfold update_metrics. destruct (outputs self data). reflexivity. Qed.

Lemma nth_pred_row (row : list (list T)) (s : nat) :
  nth s (map argmax row) 0 = argmax (nth s row []).
Proof. change 0 with (argmax (@nil T)). apply map_nth. Qed.


Lemma argmax_from_in_row (l : list T) :
  forall (best : T) (best_i i : Z),
    0 <= best_i < i ->
    0 <= argmax_from best best_i i l < i + Z.of_nat (length l).
Proof.
  induction l as [|x l IH]; intros best best_i i B; simpl argmax_from.
  - simpl. lia.
  - cbn [length]. rewrite Nat2Z.inj_succ.
    destruct (t_above x best).
    + pose proof (IH x i (i + 1) ltac:(lia)). lia.
    + pose proof (IH best best_i (i + 1) ltac:(lia)). lia.
Qed.

Lemma argmax_in_row (x : T) (row : list T) :
  0 <= argmax (x :: row) < Z.of_nat (length (x :: row)).
Proof.
  unfold argmax. cbn [length]. rewrite Nat2Z.inj_succ.
  pose proof (argmax_from_in_row row x 0 1 ltac:(lia)). lia.
Qed.

Lemma correct_NSP_index (NSP_output : list (list T)) (data : Batch) :
  length NSP_output = length (is_next data) ->
  correct_NSP NSP_output data =
  count_below (length (is_next data))
              (fun i => predicted_NSP NSP_output i =? nth i (is_next data) 0).
Proof.
  intros L. unfold correct_NSP, eq_count.
  rewrite (count_combine_index _ 0 0), length_map, L, Nat.min_id.
  apply count_below_ext. intros i _. simpl.
  rewrite nth_pred_row. reflexivity.
Qed.




Lemma correct_MLM_bounds (MLM_output : list (list (list T))) (data : Batch) :
  0 <= correct_MLM MLM_output data <= mask_sum (ne_zero (mask_ids data)).
Proof.
  unfold correct_MLM. split; [apply eq_count_bounds|].
  etransitivity; [apply eq_count_bounds_l|]. apply select_length.
Qed.

Lemma correct_NSP_bounds (NSP_output : list (list T)) (data : Batch) :
  0 <= correct_NSP NSP_output data <= nelement (is_next data).
Proof. unfold correct_NSP, nelement. apply eq_count_bounds. Qed.

Lemma mask_sum_nonneg (mask : list (list bool)) : 0 <= mask_sum mask.
Proof. unfold mask_sum. lia. Qed.


(** C4. The NSP accuracy counters of [train] count every example: the
    class predicted for an example is the argmax over its NSP logits, which
    on two logits is class 1 when the second is above the first and class 0
    otherwise (on any row, an index of the row); after a batch,
    [total_correct_NSP] has grown by the number of examples whose predicted
    class equals [is_next], and [total_element_NSP] by the number of labels
    in [is_next], the batch size; neither depends on [mask_ids]. *)
Theorem nsp_accuracy_counts_every_example
    (self : trainer) (data : Batch) (m : Metrics) :
  length (fst (outputs self data)) = length (is_next data) ->
  let NSP_output := fst (outputs self data) in
  let m' := update_metrics self data m in
  (forall i a b,
     nth i NSP_output [] = [a; b] ->
     predicted_NSP NSP_output i = if t_above b a then 1 else 0)
  /\ (forall i, nth i NSP_output [] <> [] ->
                0 <= predicted_NSP NSP_output i
                  < Z.of_nat (length (nth i NSP_output [])))
  /\ total_correct_NSP m' =
       total_correct_NSP m
       + count_below (length (is_next data))
           (fun i => predicted_NSP NSP_output i =? nth i (is_next data) 0)
  /\ total_element_NSP m' =
       total_element_NSP m + Z.of_nat (length (is_next data))
  /\ (forall ids,
        let m'' := update_metrics self (with_mask_ids data ids) m in
        total_correct_NSP m'' = total_correct_NSP m'
        /\ total_element_NSP m'' = total_element_NSP m').
Proof.
  intros L NSP_output m'. subst NSP_output m'.
  split; [|split].
  - intros i a b E. unfold predicted_NSP. rewrite E. simpl.
    destruct (t_above b a); reflexivity.
  - intros i N. unfold predicted_NSP.
    destruct (nth i (fst (outputs self data)) []) as [|x row];
      [congruence|].
    apply argmax_in_row.
  - rewrite update_metrics_eq. simpl.
    rewrite (correct_NSP_index _ _ L).
    split; [reflexivity|]. split; [reflexivity|].
    intros ids. rewrite update_metrics_eq. simpl.
    rewrite <- (correct_NSP_index _ _ L).
    split; reflexivity.
Qed.

End Counters.

(** ** The run of an epoch *)

Lemma firstn_snoc {A : Type} (l : list A) (n : nat) :
  firstn (S n) l =
  firstn n l ++ match nth_error l n with Some x => [x] | None => [] end.
Proof.
  revert n. induction l as [|x l IH]; intros [|n]; simpl; try reflexivity.
  f_equal. apply IH.
Qed.

Section Epoch.
Context {T P O : Type} `{TorchFloat T} `{Network T P O}.
Local Abbreviation trainer := (@BERTTraining P O).

Lemma run_app (self : trainer) (m : Metrics) (l l' : list Batch) :
  run self m (l ++ l') = run (fst (run self m l)) (snd (run self m l)) l'.
Proof.
  revert self m. induction l as [|d l IH]; intros self m; simpl;
    [reflexivity | apply IH].
Qed.

Lemma update_consistent (self : trainer) (data : Batch) (m : Metrics) :
  consistent m -> consistent (update_metrics self data m).
Proof.
  intros [N M]. rewrite update_metrics_eq. unfold consistent. simpl.
  pose proof (correct_NSP_bounds (fst (outputs self data)) data).
  pose proof (correct_MLM_bounds (snd (outputs self data)) data).
  lia.
Qed.

Lemma update_grows (self : trainer) (data : Batch) (m : Metrics) :
  grows m (update_metrics self data m).
Proof.
  rewrite update_metrics_eq. unfold grows. simpl.
  pose proof (correct_NSP_bounds (fst (outputs self data)) data).
  pose proof (correct_MLM_bounds (snd (outputs self data)) data).
  lia.
Qed.

Lemma grows_refl (m : Metrics) : grows m m.
Proof. unfold grows. lia. Qed.

Lemma run_consistent (self : trainer) (m : Metrics) (l : list Batch) :
  consistent m -> consistent (snd (run self m l)).
Proof.
  revert self m. induction l as [|d l IH]; intros self m C; simpl;
    [exact C|].
  apply IH, update_consistent, C.
Qed.

Lemma metrics0_consistent : consistent metrics0.
Proof. unfold consistent, metrics0. simpl. lia. Qed.

Lemma metrics_after_S (self : trainer) (data_loader : list Batch) (n : nat) :
  metrics_after self data_loader (S n) =
  match nth_error data_loader n with
  | Some data =>
      update_metrics
        (fst (run (started self) metrics0 (firstn n data_loader)))
        data (metrics_after self data_loader n)
  | None => metrics_after self data_loader n
  end.
Proof.
  unfold metrics_after. rewrite firstn_snoc, run_app.
  destruct (nth_error data_loader n); reflexivity.
Qed.

Lemma train_loop_metrics (data_loader : list Batch) :
  forall (self : trainer) (i : Z) (m : Metrics) (out : list Py.fstring),
    consistent m ->
    consistent (final_metrics (train_loop self i data_loader m out)).
Proof.
  induction data_loader as [|d l IH]; intros self i m out C; simpl;
    [exact C|].
  pose proof (update_consistent self d m C) as C'.
  destruct (batch_log (optimize self d) i (update_metrics self d m)
                      (batch_loss self d)) as [[line|]|e]; simpl; auto.
Qed.

Lemma train_final_metrics (self : trainer) (epoch : Z)
    (data_loader : list Batch) :
  final_metrics (train self epoch data_loader) =
  final_metrics (train_loop (started self) 0 data_loader metrics0 []).
Proof.
  unfold train. fold (started self).
  destruct (status (train_loop (started self) 0 data_loader metrics0 []));
    [|reflexivity].
  destruct (epoch_line _ _ _); reflexivity.
Qed.

(** C9. Within one call to [train] the counters stay consistent and never
    decrease: they start consistent; after any number of batches
    [0 <= total_correct_NSP <= total_element_NSP] and
    [0 <= total_correct_MLM <= total_element_MLM]; from one batch to the
    next no counter decreases; each increment of a numerator is a count
    between 0 and the increment of its denominator; and the counters the
    call ends with, returned or raised, are consistent. *)
Theorem counters_consistent_and_monotone
    (self : trainer) (epoch : Z) (data_loader : list Batch) :
  consistent metrics0
  /\ (forall n, consistent (metrics_after self data_loader n))
  /\ (forall n, grows (metrics_after self data_loader n)
                      (metrics_after self data_loader (S n)))
  /\ (forall (self' : trainer) data m,
        let m' := update_metrics self' data m in
        0 <= total_correct_NSP m' - total_correct_NSP m
          <= total_element_NSP m' - total_element_NSP m
        /\ 0 <= total_correct_MLM m' - total_correct_MLM m
             <= total_element_MLM m' - total_element_MLM m)
  /\ consistent (final_metrics (train self epoch data_loader)).
Proof.
  split; [apply metrics0_consistent|].
  split; [intros n; apply run_consistent, metrics0_consistent|].
  split.
  { intros n. rewrite metrics_after_S.
    destruct (nth_error data_loader n);
      [apply update_grows | apply grows_refl]. }
  split.
  { intros self' data m. rewrite update_metrics_eq. simpl.
    pose proof (correct_NSP_bounds (fst (outputs self' data)) data).
    pose proof (correct_MLM_bounds (snd (outputs self' data)) data).
    lia. }
  rewrite train_final_metrics.
  apply train_loop_metrics, metrics0_consistent.
Qed.

End Epoch.

(** ** What the loop prints *)

Lemma filter_combine_shift {A : Type} (q : nat -> bool) (ls : list A) :
  forall s n,
    map snd (filter (fun kl => q (fst kl)) (combine (seq (S s) n) ls)) =
    map snd (filter (fun kl => q (S (fst kl))) (combine (seq s n) ls)).
Proof.
  induction ls as [|l ls IH]; intros s [|n]; simpl; try reflexivity.
  destruct (q (S s)); simpl; rewrite IH; reflexivity.
Qed.

Lemma every_from_cons {A : Type} (i log_freq : Z) (l : A) (ls : list A) :
  every_from i log_freq (l :: ls) =
  (if i mod log_freq =? 0 then [l] else [])
    ++ every_from (i + 1) log_freq ls.
Proof.
  unfold every_from. simpl. rewrite Z.add_0_r.
  assert (E : map snd (filter
                (fun kl : nat * A => (i + Z.of_nat (fst kl)) mod log_freq =? 0)
                (combine (seq 1 (length ls)) ls)) =
              map snd (filter
                (fun kl : nat * A =>
                   (i + 1 + Z.of_nat (fst kl)) mod log_freq =? 0)
                (combine (seq 0 (length ls)) ls))).
  { rewrite (filter_combine_shift
               (fun k => (i + Z.of_nat k) mod log_freq =? 0)).
    f_equal. apply filter_ext. intros [k x]. simpl fst.
    replace (i + Z.of_nat (S k)) with (i + 1 + Z.of_nat k) by lia.
    reflexivity. }
  destruct (i mod log_freq =? 0); simpl; rewrite E; reflexivity.
Qed.

Lemma every_one {A : Type} (ls : list A) : every 1 ls = ls.
Proof.
  unfold every. generalize 0.
  induction ls as [|l ls IH]; intros i; [reflexivity|].
  rewrite every_from_cons, Z.mod_1_r, IH. reflexivity.
Qed.

Lemma every_from_none {A : Type} (log_freq : Z) (ls : list A) :
  forall i, 0 < i -> i + Z.of_nat (length ls) <= log_freq ->
            every_from i log_freq ls = [].
Proof.
  induction ls as [|l ls IH]; intros i Hi Hn; [reflexivity|].
  simpl length in Hn. rewrite every_from_cons, IH by lia.
  rewrite Z.mod_small by lia.
  destruct (Z.eqb_spec i 0); [lia | reflexivity].
Qed.

Lemma every_large {A : Type} (log_freq : Z) (l : A) (ls : list A) :
  Z.of_nat (length (l :: ls)) <= log_freq -> every log_freq (l :: ls) = [l].
Proof.
  intros L. simpl length in L. unfold every.
  rewrite every_from_cons, every_from_none by lia.
  rewrite Z.mod_0_l by lia. reflexivity.
Qed.

Section Logging.
Context {T P O : Type} `{TorchFloat T} `{Network T P O}.
Local Abbreviation trainer := (@BERTTraining P O).

Lemma accuracy_ok (correct total : Z) :
  total <> 0 ->
  accuracy correct total = Py.Return (Py.PyFloat (percent correct total)).
Proof.
  intros N. unfold accuracy, Py.truediv. simpl.
  destruct (Z.eqb_spec total 0); [contradiction | reflexivity].
Qed.

Lemma accuracy_zero (correct : Z) :
  accuracy correct 0 = Py.Raise Py.ZeroDivisionError.
Proof. reflexivity. Qed.

Lemma batch_line_ok (i : Z) (m : Metrics) (loss : T) :
  0 <= i -> total_element_NSP m <> 0 -> total_element_MLM m <> 0 ->
  batch_line i m loss = Py.Return (logged_line i m (t_item loss)).
Proof.
  intros Hi N M. unfold batch_line, Py.truediv. simpl.
  destruct (Z.eqb_spec (i + 1) 0); [lia|]. simpl.
  rewrite (accuracy_ok _ _ N), (accuracy_ok _ _ M). reflexivity.
Qed.

Lemma batch_line_zero (i : Z) (m : Metrics) (loss : T) :
  total_element_NSP m = 0 \/ total_element_MLM m = 0 ->
  batch_line i m loss = Py.Raise Py.ZeroDivisionError.
Proof.
  intros Z0. unfold batch_line.
  destruct (Py.truediv (avg_loss m) (Py.PyInt (i + 1))) as [r|[]];
    [|reflexivity].
  simpl. destruct (Z.eq_dec (total_element_NSP m) 0) as [N|N].
  - rewrite N. reflexivity.
  - rewrite (accuracy_ok _ _ N). simpl.
    destruct Z0 as [N0|M0]; [contradiction|]. rewrite M0. reflexivity.
Qed.

Lemma optimize_log_freq (self : trainer) (data : Batch) :
  log_freq (optimize self data) = log_freq self.
Proof. unfold optimize. destruct (adam_step _ _ _ _ _). reflexivity. Qed.

Lemma optimize_criterion (self : trainer) (data : Batch) :
  criterion (optimize self data) = criterion self.
Proof. unfold optimize. destruct (adam_step _ _ _ _ _). reflexivity. Qed.

Lemma batch_log_ok (self : trainer) (i : Z) (m : Metrics) (loss : T) :
  log_freq self <> 0 -> 0 <= i ->
  total_element_NSP m <> 0 -> total_element_MLM m <> 0 ->
  batch_log self i m loss =
  Py.Return (if i mod log_freq self =? 0
             then Some (logged_line i m (t_item loss)) else None).
Proof.
  intros L Hi N M. unfold batch_log, Py.mod_int.
  destruct (Z.eqb_spec (log_freq self) 0); [contradiction|]. simpl.
  destruct (i mod log_freq self =? 0); [|reflexivity].
  rewrite (batch_line_ok _ _ _ Hi N M). reflexivity.
Qed.

Lemma batch_log_raises (self : trainer) (i : Z) (m : Metrics) (loss : T) :
  log_freq self = 0
  \/ (i mod log_freq self = 0
      /\ (total_element_NSP m = 0 \/ total_element_MLM m = 0)) ->
  batch_log self i m loss = Py.Raise Py.ZeroDivisionError.
Proof.
  intros [L|[L Z0]]; unfold batch_log, Py.mod_int.
  - rewrite L. reflexivity.
  - destruct (log_freq self =? 0); [reflexivity|]. simpl.
    rewrite L. simpl. rewrite (batch_line_zero _ _ _ Z0). reflexivity.
Qed.

Lemma healthy_next (self : trainer) (data : Batch) (m : Metrics)
    (rest : list Batch) :
  0 <= total_element_NSP m -> 0 <= total_element_MLM m ->
  healthy m (data :: rest) ->
  healthy (update_metrics self data m) rest
  /\ 0 < total_element_NSP (update_metrics self data m)
  /\ 0 < total_element_MLM (update_metrics self data m).
Proof.
  intros N M [HN HM]. rewrite update_metrics_eq. simpl.
  repeat split; try assumption.
  destruct rest as [|d2 rest]; simpl; [exact I|].
  pose proof (mask_sum_nonneg (ne_zero (mask_ids d2))).
  unfold nelement in *. lia.
Qed.

(** The loop from a state whose first batch is healthy: it returns, having
    printed the lines whose index is a multiple of [log_freq]. *)
Lemma train_loop_returns (data_loader : list Batch) :
  forall (self : trainer) (i : Z) (m : Metrics) (out : list Py.fstring),
    log_freq self <> 0 -> 0 <= i ->
    0 <= total_element_NSP m -> 0 <= total_element_MLM m ->
    healthy m data_loader ->
    train_loop self i data_loader m out =
    {| final_self := fst (run self m data_loader);
       final_metrics := snd (run self m data_loader);
       stdout := out ++ every_from i (log_freq self)
                                   (lines_from self i data_loader m);
       status := Py.Return tt |}.
Proof.
  induction data_loader as [|d rest IH]; intros self i m out L Hi N M Hy.
  - simpl. rewrite app_nil_r. reflexivity.
  - destruct (healthy_next self d m rest N M Hy) as (Hy' & N' & M').
    cbn [train_loop run lines_from].
    rewrite batch_log_ok;
      rewrite ?optimize_log_freq; try assumption; try lia.
    rewrite every_from_cons.
    destruct (i mod log_freq self =? 0).
    + rewrite IH; rewrite ?optimize_log_freq; try assumption; try lia.
      rewrite <- app_assoc. reflexivity.
    + rewrite IH; rewrite ?optimize_log_freq; try assumption; try lia.
      reflexivity.
Qed.

(** The loop at a batch whose line cannot be computed: it raises there. *)
Lemma train_loop_raises (self : trainer) (i : Z) (data : Batch)
    (rest : list Batch) (m : Metrics) (out : list Py.fstring) :
  let m' := update_metrics self data m in
  log_freq self = 0
  \/ (i mod log_freq self = 0
      /\ (total_element_NSP m' = 0 \/ total_element_MLM m' = 0)) ->
  train_loop self i (data :: rest) m out =
  {| final_self := optimize self data;
     final_metrics := m';
     stdout := out;
     status := Py.Raise Py.ZeroDivisionError |}.
Proof.
  intros m' C. cbn [train_loop].
  rewrite batch_log_raises; [reflexivity|].
  rewrite optimize_log_freq. exact C.
Qed.

End Logging.

(** ** The running average *)

Lemma fold_add_float (ls : list float) (a : float) :
  fold_left (fun x l => Py.add x (Py.PyFloat l)) ls (Py.PyFloat a) =
  Py.PyFloat (fold_left PrimFloat.add ls a).
Proof.
  revert a. induction ls as [|l ls IH]; intros a; simpl;
    [reflexivity | apply IH].
Qed.

(** From the int [0], the accumulator is a float from the first batch on,
    and its value is the sum of the losses in both cases. *)
Lemma fold_add_from_zero (ls : list float) :
  Py.to_float (fold_left (fun x l => Py.add x (Py.PyFloat l)) ls
                         (Py.PyInt 0)) = fsum ls
  /\ (ls <> [] ->
      fold_left (fun x l => Py.add x (Py.PyFloat l)) ls (Py.PyInt 0) =
      Py.PyFloat (fsum ls)).
Proof.
  destruct ls as [|l ls]; simpl.
  - split; [reflexivity | congruence].
  - unfold fsum. simpl. rewrite fold_add_float. split; reflexivity.
Qed.

Section Average.
Context {T P O : Type} `{TorchFloat T} `{Network T P O}.
Local Abbreviation trainer := (@BERTTraining P O).

Lemma avg_loss_run (data_loader : list Batch) :
  forall (self : trainer) (m : Metrics),
    avg_loss (snd (run self m data_loader)) =
    fold_left (fun x l => Py.add x (Py.PyFloat l))
              (losses self data_loader) (avg_loss m).
Proof.
  induction data_loader as [|d rest IH]; intros self m; simpl;
    [reflexivity|].
  rewrite IH, update_metrics_eq. reflexivity.
Qed.

Lemma losses_firstn (data_loader : list Batch) :
  forall (self : trainer) (n : nat),
    losses self (firstn n data_loader) = firstn n (losses self data_loader).
Proof.
  induction data_loader as [|d rest IH]; intros self [|n]; simpl;
    try reflexivity.
  f_equal. apply IH.
Qed.

Lemma length_losses (data_loader : list Batch) :
  forall self : trainer, length (losses self data_loader) = length data_loader.
Proof.
  induction data_loader as [|d rest IH]; intros self; simpl;
    [reflexivity | f_equal; apply IH].
Qed.

Lemma avg_loss_after (self : trainer) (data_loader : list Batch) (n : nat) :
  let ls := losses (started self) data_loader in
  Py.to_float (avg_loss (metrics_after self data_loader n)) =
    fsum (firstn n ls)
  /\ ((1 <= n)%nat -> data_loader <> [] ->
      avg_loss (metrics_after self data_loader n) =
      Py.PyFloat (fsum (firstn n ls))).
Proof.
  intros ls. unfold metrics_after. rewrite avg_loss_run, losses_firstn.
  fold ls. destruct (fold_add_from_zero (firstn n ls)) as [A B].
  split; [exact A|]. intros Hn Hd. apply B.
  subst ls. destruct data_loader as [|d rest]; [congruence|].
  destruct n as [|n]; [lia|]. simpl. discriminate.
Qed.

Lemma lines_from_index (data_loader : list Batch) :
  forall (self : trainer) (i : Z) (m : Metrics),
    lines_from self i data_loader m =
    map (fun k =>
           logged_line (i + Z.of_nat k)
                       (snd (run self m (firstn (S k) data_loader)))
                       (nth k (losses self data_loader) PrimFloat.nan))
        (seq 0 (length data_loader)).
Proof.
  induction data_loader as [|d rest IH]; intros self i m;
    [reflexivity|].
  cbn [lines_from length seq map]. rewrite Z.add_0_r. f_equal.
  rewrite IH, <- seq_shift, map_map. apply map_ext. intros k.
  replace (i + 1 + Z.of_nat k) with (i + Z.of_nat (S k)) by lia.
  reflexivity.
Qed.

Lemma lines_from_start (self : trainer) (data_loader : list Batch) :
  lines_from (started self) 0 data_loader metrics0 =
  map (line_at self data_loader) (seq 0 (length data_loader)).
Proof.
  rewrite lines_from_index. apply map_ext. intros k.
  unfold line_at, logged_line. fold (metrics_after self data_loader (S k)).
  destruct (avg_loss_after self data_loader (S k)) as [A _].
  cbv zeta in A. rewrite A.
  replace (0 + Z.of_nat k + 1) with (Z.of_nat (S k)) by lia.
  reflexivity.
Qed.

Lemma run_log_freq (data_loader : list Batch) :
  forall (self : trainer) (m : Metrics),
    log_freq (fst (run self m data_loader)) = log_freq self.
Proof.
  induction data_loader as [|d rest IH]; intros self m; simpl;
    [reflexivity|].
  rewrite IH. apply optimize_log_freq.
Qed.

Lemma run_positive (data_loader : list Batch) :
  forall (self : trainer) (m : Metrics),
    0 < total_element_NSP m -> 0 < total_element_MLM m ->
    0 < total_element_NSP (snd (run self m data_loader))
    /\ 0 < total_element_MLM (snd (run self m data_loader)).
Proof.
  induction data_loader as [|d rest IH]; intros self m N M; simpl;
    [split; assumption|].
  apply IH; rewrite update_metrics_eq; simpl.
  - unfold nelement. lia.
  - pose proof (mask_sum_nonneg (ne_zero (mask_ids d))). lia.
Qed.

Lemma run_healthy_positive (self : trainer) (m : Metrics)
    (data_loader : list Batch) :
  data_loader <> [] -> healthy m data_loader ->
  0 <= total_element_NSP m -> 0 <= total_element_MLM m ->
  0 < total_element_NSP (snd (run self m data_loader))
  /\ 0 < total_element_MLM (snd (run self m data_loader)).
Proof.
  intros Hd Hy N M. destruct data_loader as [|d rest]; [congruence|].
  destruct (healthy_next self d m rest N M Hy) as (_ & N' & M').
  cbn [run]. apply run_positive; assumption.
Qed.

Lemma epoch_line_ok (epoch n : Z) (m : Metrics) :
  n <> 0 -> total_element_NSP m <> 0 -> total_element_MLM m <> 0 ->
  epoch_line epoch n m =
  Py.Return
    [Py.Lit "Epoch "; Py.Field (Py.PyInt epoch) "";
     Py.Lit " | Total-Loss: ";
     Py.Field (Py.PyFloat (PrimFloat.div (Py.to_float (avg_loss m))
                                        (Py.float_of_int n))) "";
     Py.Lit " | AccuracyNSP: ";
     Py.Field (Py.PyFloat (percent (total_correct_NSP m)
                                   (total_element_NSP m))) ".2f";
     Py.Lit " | AccuracyMLM: ";
     Py.Field (Py.PyFloat (percent (total_correct_MLM m)
                                   (total_element_MLM m))) ".2f"].
Proof.
  intros Hn N M. unfold epoch_line, Py.truediv. cbn [Py.is_zero].
  destruct (Z.eqb_spec n 0); [contradiction|]. cbn [Py.bind].
  rewrite (accuracy_ok _ _ N), (accuracy_ok _ _ M). reflexivity.
Qed.

Lemma summary_line_eq (self : trainer) (epoch : Z) (data_loader : list Batch) :
  let m := snd (run (started self) metrics0 data_loader) in
  summary_line self epoch data_loader =
  [Py.Lit "Epoch "; Py.Field (Py.PyInt epoch) "";
   Py.Lit " | Total-Loss: ";
   Py.Field (Py.PyFloat
     (PrimFloat.div (Py.to_float (avg_loss m))
                    (Py.float_of_int (Z.of_nat (length data_loader))))) "";
   Py.Lit " | AccuracyNSP: ";
   Py.Field (Py.PyFloat (percent (total_correct_NSP m)
                                 (total_element_NSP m))) ".2f";
   Py.Lit " | AccuracyMLM: ";
   Py.Field (Py.PyFloat (percent (total_correct_MLM m)
                                 (total_element_MLM m))) ".2f"].
Proof.
  intros m. unfold summary_line.
  destruct (avg_loss_after self data_loader (length data_loader)) as [A _].
  cbv zeta in A.
  rewrite firstn_all2 in A by (rewrite length_losses; apply Nat.le_refl).
  unfold metrics_after in *. rewrite firstn_all in *. fold m in A.
  rewrite A. reflexivity.
Qed.

(** An epoch whose first batch has an example and a masked position, with a
    log frequency that is not 0: [train] returns, having printed the lines
    of the batches whose index is a multiple of [log_freq] and then the
    summary. *)
Lemma train_returns (self : trainer) (epoch : Z) (data_loader : list Batch) :
  data_loader <> [] -> log_freq self <> 0 -> healthy metrics0 data_loader ->
  train self epoch data_loader =
  {| final_self := fst (run (started self) metrics0 data_loader);
     final_metrics := metrics_after self data_loader (length data_loader);
     stdout :=
       every (log_freq self)
             (map (line_at self data_loader) (seq 0 (length data_loader)))
       ++ [summary_line self epoch data_loader];
     status := Py.Return tt |}.
Proof.
  intros Hd L Hy.
  destruct (run_healthy_positive (started self) metrics0 data_loader Hd Hy)
    as [N M]; [reflexivity | reflexivity |].
  assert (Hn : Z.of_nat (length data_loader) <> 0).
  { destruct data_loader; [congruence | simpl; lia]. }
  unfold train. fold (started self).
  rewrite train_loop_returns;
    [ | exact L | apply Z.le_refl | apply Z.le_refl | apply Z.le_refl
      | exact Hy ].
  cbn [status final_metrics final_self stdout].
  rewrite epoch_line_ok; [ | exact Hn | lia | lia ].
  rewrite lines_from_start, summary_line_eq.
  unfold metrics_after. rewrite firstn_all. reflexivity.
Qed.

End Average.

(** ** When [train] returns and when it raises *)

Section Outcomes.
Context {T P O : Type} `{TorchFloat T} `{Network T P O}.
Local Abbreviation trainer := (@BERTTraining P O).

(** The first iteration raises when [log_freq] is 0 or a denominator is
    still 0 after the first batch; nothing has been printed then. *)
Lemma train_raises_first (self : trainer) (epoch : Z) (data : Batch)
    (rest : list Batch) :
  let m' := update_metrics (started self) data metrics0 in
  log_freq self = 0 \/ total_element_NSP m' = 0 \/ total_element_MLM m' = 0 ->
  train self epoch (data :: rest) =
  {| final_self := optimize (started self) data;
     final_metrics := m';
     stdout := [];
     status := Py.Raise Py.ZeroDivisionError |}.
Proof.
  intros m' C. unfold train. fold (started self).
  rewrite train_loop_raises; [reflexivity|].
  change (log_freq (started self)) with (log_freq self).
  destruct C as [L|C]; [left; exact L | right].
  split; [reflexivity | exact C].
Qed.

Lemma train_empty (self : trainer) (epoch : Z) :
  train self epoch [] =
  {| final_self := started self;
     final_metrics := metrics0;
     stdout := [];
     status := Py.Raise Py.ZeroDivisionError |}.
Proof. reflexivity. Qed.

(** [train] returns only from a data source that is not empty, with a log
    frequency that is not 0 and a first batch that has an example and a
    masked position. *)
Lemma train_returned (self : trainer) (epoch : Z) (data_loader : list Batch) :
  status (train self epoch data_loader) = Py.Return tt ->
  data_loader <> [] /\ log_freq self <> 0 /\ healthy metrics0 data_loader.
Proof.
  intros R. destruct data_loader as [|d rest].
  - rewrite train_empty in R. discriminate.
  - split; [discriminate|].
    pose proof (train_raises_first self epoch d rest) as F. cbv zeta in F.
    assert (U := update_metrics_eq (started self) d metrics0).
    pose proof (mask_sum_nonneg (ne_zero (mask_ids d))) as M0.
    destruct (Z.eq_dec (log_freq self) 0) as [L|L].
    { rewrite F in R by (left; exact L). discriminate. }
    split; [exact L|]. simpl. unfold nelement in *.
    destruct (Z.eq_dec (Z.of_nat (length (is_next d))) 0) as [N|N].
    { rewrite F in R; [discriminate|]. right; left. rewrite U. simpl.
      unfold nelement. exact N. }
    destruct (Z.eq_dec (mask_sum (ne_zero (mask_ids d))) 0) as [M|M].
    { rewrite F in R; [discriminate|]. right; right. rewrite U. simpl.
      exact M. }
    lia.
Qed.

(** A call that does not return has raised [ZeroDivisionError] before
    printing anything: at the summary of an empty data source, or at the
    first batch. *)
Lemma train_raised (self : trainer) (epoch : Z) (data_loader : list Batch) :
  status (train self epoch data_loader) <> Py.Return tt ->
  stdout (train self epoch data_loader) = []
  /\ status (train self epoch data_loader) = Py.Raise Py.ZeroDivisionError.
Proof.
  intros R. destruct data_loader as [|d rest].
  - rewrite train_empty. split; reflexivity.
  - pose proof (train_raises_first self epoch d rest) as F. cbv zeta in F.
    assert (U := update_metrics_eq (started self) d metrics0).
    destruct (Z.eq_dec (log_freq self) 0) as [L|L].
    { rewrite F by (left; exact L). split; reflexivity. }
    destruct (Z.eq_dec (nelement (is_next d)) 0) as [N|N].
    { rewrite F; [split; reflexivity|]. right; left. rewrite U. exact N. }
    destruct (Z.eq_dec (mask_sum (ne_zero (mask_ids d))) 0) as [M|M].
    { rewrite F; [split; reflexivity|]. right; right. rewrite U. exact M. }
    exfalso. apply R. rewrite train_returns; [reflexivity | discriminate
      | exact L |].
    pose proof (mask_sum_nonneg (ne_zero (mask_ids d))).
    simpl. unfold nelement in *. lia.
Qed.

Lemma optimize_with_log_freq (self : trainer) (data : Batch) (log_freq0 : Z) :
  optimize (with_log_freq self log_freq0) data =
  with_log_freq (optimize self data) log_freq0.
Proof.
  unfold optimize, with_log_freq. simpl.
  destruct (adam_step _ _ _ _ _). reflexivity.
Qed.

Lemma losses_with_log_freq (data_loader : list Batch) :
  forall (self : trainer) (log_freq0 : Z),
    losses (with_log_freq self log_freq0) data_loader =
    losses self data_loader.
Proof.
  induction data_loader as [|d rest IH]; intros self lf; simpl;
    [reflexivity|].
  rewrite optimize_with_log_freq, IH. reflexivity.
Qed.

Lemma run_with_log_freq (data_loader : list Batch) :
  forall (self : trainer) (m : Metrics) (log_freq0 : Z),
    snd (run (with_log_freq self log_freq0) m data_loader) =
    snd (run self m data_loader).
Proof.
  induction data_loader as [|d rest IH]; intros self m lf; simpl;
    [reflexivity|].
  rewrite optimize_with_log_freq, IH. reflexivity.
Qed.


(** C10. On a data source without batches [train] prints nothing, takes no
    optimizer step and leaves the accumulators at their initial values: the
    parameters and the optimizer are those it was called with (the model has
    only been put in training mode, which changes nothing when it was
    already); and the summary is not printed, because its first division,
    [avg_loss / len(data_loader)], is [0 / 0] and raises
    [ZeroDivisionError]. *)
Theorem empty_data_source_raises (self : trainer) (epoch : Z) :
  let r := train self epoch [] in
  stdout r = []
  /\ status r = Py.Raise Py.ZeroDivisionError
  /\ final_metrics r = metrics0
  /\ final_self r = started self
  /\ parameters (model (final_self r)) = parameters (model self)
  /\ optimizer (final_self r) = optimizer self
  /\ (training (model self) = true -> final_self r = self)
  /\ Py.truediv (avg_loss metrics0) (Py.PyInt (Z.of_nat (@length Batch [])))
     = Py.Raise Py.ZeroDivisionError.
Proof.
  intros r. subst r. rewrite train_empty. cbn [stdout status final_metrics
    final_self].
  repeat (split; [reflexivity|]). split; [|reflexivity].
  intros Tr. destruct self as [[p t] ? ? ? ? ? ? ?]. simpl in Tr. subst t.
  reflexivity.
Qed.

End Outcomes.

(** ** The loss *)

Lemma nth_flatten {A : Type} (d : A) (n : nat) (t : list (list A)) :
  rows_of_length n t ->
  forall b s, (s < n)%nat ->
              nth (b * n + s) (flatten t) d = nth s (nth b t []) d.
Proof.
  unfold flatten. induction 1 as [|r t L _ IH]; intros b s Hs.
  - destruct b, s; simpl; try reflexivity; destruct (_ + _)%nat; reflexivity.
  - destruct b as [|b]; simpl.
    + apply app_nth1. lia.
    + replace (n + b * n + s)%nat with (length r + (b * n + s))%nat by lia.
      rewrite app_nth2_plus. apply IH. exact Hs.
Qed.

Section Loss.
Context {T P O : Type} `{TorchFloat T} `{Network T P O}.
Local Abbreviation trainer := (@BERTTraining P O).

Lemma cross_entropy_mean_over (c : CrossEntropyLoss) (input : list (list T))
    (target : list Z) :
  cross_entropy c input target =
  mean_over input target
            (labelled (ignore_index c) (examples input target) target).
Proof.
  unfold cross_entropy, kept, mean_over, labelled, examples.
  rewrite (filter_combine_index _ [] 0), map_map, length_map. reflexivity.
Qed.

Lemma batch_loss_eq (self : trainer) (data : Batch) :
  batch_loss self data =
  t_add (NSP_loss self (fst (outputs self data)) data)
        (MLM_loss self (snd (outputs self data)) data).
Proof. unfold batch_loss. destruct (outputs self data). reflexivity. Qed.

(** C2. The loss of a batch is [NSP_loss + MLM_loss], one addition and no
    weights; each term is the cross entropy that skips the label 0: the
    terms of the examples whose label is not 0, summed and divided by the
    number of those examples; the examples of the MLM term are the positions
    of the (batch, seq_len) grid in row-major order, position [s] of example
    [b] being example [b * seq_len + s], with its logits over the
    vocabulary and its label. *)
Theorem loss_is_sum_of_two_cross_entropies (self : trainer) (data : Batch) :
  constructed self ->
  let NSP_output := fst (outputs self data) in
  let MLM_output := snd (outputs self data) in
  let ids := mask_ids data in
  batch_loss self data =
    t_add (NSP_loss self NSP_output data) (MLM_loss self MLM_output data)
  /\ NSP_loss self NSP_output data =
       mean_over NSP_output (is_next data)
         (labelled 0 (examples NSP_output (is_next data)) (is_next data))
  /\ MLM_loss self MLM_output data =
       mean_over (flatten MLM_output) (flatten ids)
         (labelled 0 (examples (flatten MLM_output) (flatten ids))
                   (flatten ids))
  /\ (forall seq_len b s,
        rows_of_length seq_len MLM_output -> rows_of_length seq_len ids ->
        (s < seq_len)%nat ->
        nth (b * seq_len + s) (flatten MLM_output) [] =
          nth s (nth b MLM_output []) []
        /\ nth (b * seq_len + s) (flatten ids) 0 = label_at ids b s).
Proof.
  intros C NSP_output MLM_output ids. unfold constructed in C.
  split; [apply batch_loss_eq|].
  unfold NSP_loss, MLM_loss. rewrite !cross_entropy_mean_over, C.
  split; [reflexivity|]. split; [reflexivity|].
  intros seq_len b s RM RI Hs. split.
  - apply nth_flatten; assumption.
  - unfold label_at. apply nth_flatten; assumption.
Qed.

(** C3. The NSP term is computed with the same criterion, so it skips the
    label 0 too: with labels in {0, 1}, [NSP_loss] is the sum of the terms
    of the examples whose [is_next] is 1, divided by the number of those
    examples, and it does not depend on the logits of the examples whose
    [is_next] is 0 (they contribute nothing to the loss, hence nothing to
    its gradient). *)
Theorem nsp_loss_ignores_label_zero
    (self : trainer) (data : Batch) (NSP_output : list (list T)) :
  constructed self ->
  (forall y, In y (is_next data) -> y = 0 \/ y = 1) ->
  let ones :=
    filter (fun i => nth i (is_next data) 0 =? 1)
           (seq 0 (examples NSP_output (is_next data))) in
  NSP_loss self NSP_output data =
    t_div_count (t_sum (map (fun i => t_nll (nth i NSP_output []) 1) ones))
                (Z.of_nat (length ones))
  /\ (forall NSP_output' : list (list T),
        length NSP_output' = length NSP_output ->
        (forall i, nth i (is_next data) 0 <> 0 ->
                   nth i NSP_output' [] = nth i NSP_output []) ->
        NSP_loss self NSP_output' data = NSP_loss self NSP_output data)
  /\ batch_loss self data =
       t_add (NSP_loss self (fst (outputs self data)) data)
             (MLM_loss self (snd (outputs self data)) data).
Proof.
  intros C B ones. unfold constructed in C.
  assert (E : labelled 0 (examples NSP_output (is_next data)) (is_next data)
              = ones).
  { unfold labelled. subst ones. apply filter_ext_in. intros i Hi.
    apply in_seq in Hi. unfold examples in Hi.
    destruct (B (nth i (is_next data) 0)) as [Z0|Z1].
    - apply nth_In. lia.
    - rewrite Z0. reflexivity.
    - rewrite Z1. reflexivity. }
  split; [|split].
  - unfold NSP_loss. rewrite cross_entropy_mean_over, C.
    cbn [ignore_index]. rewrite E. unfold mean_over. f_equal. f_equal.
    apply map_ext_in. intros i Hi. subst ones.
    apply filter_In in Hi. destruct Hi as [_ Hi].
    apply Z.eqb_eq in Hi. rewrite Hi. reflexivity.
  - intros NSP_output' L A. unfold NSP_loss.
    rewrite !cross_entropy_mean_over, C.
    cbn [ignore_index]. unfold examples. rewrite L. unfold mean_over.
    f_equal. f_equal. apply map_ext_in. intros i Hi.
    apply filter_In in Hi. destruct Hi as [_ Hi].
    rewrite A; [reflexivity|].
    intros Z0. rewrite Z0 in Hi. discriminate.
  - apply batch_loss_eq.
Qed.

End Loss.

(** ** The log lines *)

Section Formats.
Context {T P O : Type} `{TorchFloat T} `{Network T P O}.
Local Abbreviation trainer := (@BERTTraining P O).

Lemma accuracy_returned (correct total : Z) (q : Py.num) :
  accuracy correct total = Py.Return q ->
  q = Py.PyFloat (percent correct total).
Proof.
  intros R. destruct (Z.eq_dec total 0) as [E|N].
  - rewrite E in R. discriminate.
  - rewrite (accuracy_ok _ _ N) in R. congruence.
Qed.

Lemma truediv_returned (x y q : Py.num) :
  Py.truediv x y = Py.Return q ->
  q = Py.PyFloat (PrimFloat.div (Py.to_float x) (Py.to_float y)).
Proof.
  unfold Py.truediv. destruct (Py.is_zero y); [discriminate | congruence].
Qed.

Lemma batch_line_returned (i : Z) (m : Metrics) (loss : T)
    (line : Py.fstring) :
  batch_line i m loss = Py.Return line ->
  line =
  [Py.Lit "AvgLoss: ";
   Py.Field (Py.PyFloat (PrimFloat.div (Py.to_float (avg_loss m))
                                      (Py.float_of_int (i + 1)))) "";
   Py.Lit " | AccuracyNSP: ";
   Py.Field (Py.PyFloat (percent (total_correct_NSP m)
                                 (total_element_NSP m))) ".2f";
   Py.Lit " | AccuracyMLM: ";
   Py.Field (Py.PyFloat (percent (total_correct_MLM m)
                                 (total_element_MLM m))) ".2f";
   Py.Lit " | Loss: "; Py.Field (Py.PyFloat (t_item loss)) ""].
Proof.
  unfold batch_line. intros R.
  destruct (Py.truediv (avg_loss m) (Py.PyInt (i + 1))) as [a|] eqn:A;
    [|discriminate].
  destruct (accuracy (total_correct_NSP m) (total_element_NSP m))
    as [n|] eqn:N; [|discriminate].
  destruct (accuracy (total_correct_MLM m) (total_element_MLM m))
    as [k|] eqn:M; [|discriminate].
  apply truediv_returned in A. apply accuracy_returned in N, M.
  cbn [Py.bind] in R. subst a n k. inversion R. reflexivity.
Qed.

Lemma epoch_line_returned (epoch n : Z) (m : Metrics) (line : Py.fstring) :
  epoch_line epoch n m = Py.Return line ->
  line =
  [Py.Lit "Epoch "; Py.Field (Py.PyInt epoch) "";
   Py.Lit " | Total-Loss: ";
   Py.Field (Py.PyFloat (PrimFloat.div (Py.to_float (avg_loss m))
                                      (Py.float_of_int n))) "";
   Py.Lit " | AccuracyNSP: ";
   Py.Field (Py.PyFloat (percent (total_correct_NSP m)
                                 (total_element_NSP m))) ".2f";
   Py.Lit " | AccuracyMLM: ";
   Py.Field (Py.PyFloat (percent (total_correct_MLM m)
                                 (total_element_MLM m))) ".2f"].
Proof.
  unfold epoch_line. intros R.
  destruct (Py.truediv (avg_loss m) (Py.PyInt n)) as [a|] eqn:A;
    [|discriminate].
  destruct (accuracy (total_correct_NSP m) (total_element_NSP m))
    as [q|] eqn:N; [|discriminate].
  destruct (accuracy (total_correct_MLM m) (total_element_MLM m))
    as [k|] eqn:M; [|discriminate].
  apply truediv_returned in A. apply accuracy_returned in N, M.
  cbn [Py.bind] in R. subst a q k. inversion R. reflexivity.
Qed.

Lemma train_loop_shapes (data_loader : list Batch) :
  forall (self : trainer) (i : Z) (m : Metrics) (out : list Py.fstring),
    Forall (fun l => shape l = format_shape batch_format) out ->
    Forall (fun l => shape l = format_shape batch_format)
           (stdout (train_loop self i data_loader m out)).
Proof.
  induction data_loader as [|d rest IH]; intros self i m out F;
    cbn [train_loop]; [exact F|].
  destruct (batch_log (optimize self d) i (update_metrics self d m)
                      (batch_loss self d)) as [[line|]|e] eqn:B;
    cbn [stdout]; auto.
  apply IH. apply Forall_app. split; [exact F|].
  constructor; [|constructor].
  unfold batch_log in B.
  destruct (Py.mod_int i (log_freq (optimize self d))) as [r|];
    [|discriminate].
  cbn [Py.bind] in B. destruct (r =? 0); [|discriminate].
  destruct (batch_line i (update_metrics self d m) (batch_loss self d))
    as [l|] eqn:BL; [|discriminate].
  cbn [Py.bind] in B. inversion B; subst l.
  rewrite (batch_line_returned _ _ _ _ BL). reflexivity.
Qed.

(** C7. The two lines have the formats of the logging surface: the line of
    a batch has the literal text and the format specifications of
    ["AvgLoss: {running_avg} | AccuracyNSP: {pct:.2f} | AccuracyMLM:
    {pct:.2f} | Loss: {batch_loss}"], its fields being [avg_loss / (i + 1)],
    the two percentages [correct / total * 100], both under [.2f], and the
    loss of the batch; the summary has those of ["Epoch {epoch} |
    Total-Loss: {avg} | AccuracyNSP: {pct:.2f} | AccuracyMLM: {pct:.2f}"],
    its fields being the epoch, [avg_loss / len(data_loader)] and the two
    percentages; and every line [train] prints has one of the two formats. *)
Theorem log_lines_have_the_specified_formats :
  (forall (i : Z) (m : Metrics) (loss : T) (line : Py.fstring),
     batch_line i m loss = Py.Return line ->
     shape line = format_shape batch_format
     /\ fields line =
        [Py.PyFloat (PrimFloat.div (Py.to_float (avg_loss m))
                                   (Py.float_of_int (i + 1)));
         Py.PyFloat (percent (total_correct_NSP m) (total_element_NSP m));
         Py.PyFloat (percent (total_correct_MLM m) (total_element_MLM m));
         Py.PyFloat (t_item loss)])
  /\ (forall (epoch n : Z) (m : Metrics) (line : Py.fstring),
        epoch_line epoch n m = Py.Return line ->
        shape line = format_shape epoch_format
        /\ fields line =
           [Py.PyInt epoch;
            Py.PyFloat (PrimFloat.div (Py.to_float (avg_loss m))
                                      (Py.float_of_int n));
            Py.PyFloat (percent (total_correct_NSP m) (total_element_NSP m));
            Py.PyFloat (percent (total_correct_MLM m)
                                (total_element_MLM m))])
  /\ (forall (self : trainer) (epoch : Z) (data_loader : list Batch),
        Forall (fun l => shape l = format_shape batch_format
                         \/ shape l = format_shape epoch_format)
               (stdout (train self epoch data_loader))).
Proof.
  split; [|split].
  - intros i m loss line R. rewrite (batch_line_returned _ _ _ _ R).
    split; reflexivity.
  - intros epoch n m line R. rewrite (epoch_line_returned _ _ _ _ R).
    split; reflexivity.
  - intros self epoch data_loader. unfold train. fold (started self).
    pose proof (train_loop_shapes data_loader (started self) 0 metrics0 []
                  (Forall_nil _)) as F.
    assert (F' : Forall (fun l => shape l = format_shape batch_format
                                  \/ shape l = format_shape epoch_format)
                   (stdout (train_loop (started self) 0 data_loader
                                       metrics0 []))).
    { eapply Forall_impl; [|exact F]. intros l Hl. left. exact Hl. }
    destruct (status (train_loop (started self) 0 data_loader metrics0 []));
      [|exact F'].
    destruct (epoch_line epoch (Z.of_nat (length data_loader))
                (final_metrics (train_loop (started self) 0 data_loader
                                           metrics0 []))) as [line|] eqn:E;
      cbn [stdout]; [|exact F'].
    apply Forall_app. split; [exact F'|]. constructor; [|constructor].
    right. rewrite (epoch_line_returned _ _ _ _ E). reflexivity.
Qed.

End Formats.

(** ** Beyond one call: what [train] keeps, and when it returns *)

Lemma positive_filter {A : Type} (f : A -> bool) (l : list A) :
  0 < Z.of_nat (length (filter f l)) <-> Exists (fun x => f x = true) l.
Proof.
  induction l as [|x l IH]; simpl.
  - split; [lia | intros E; inversion E].
  - destruct (f x) eqn:F; simpl.
    + split; [intros _; left; exact F | lia].
    + rewrite IH. split; [intros E; right; exact E|].
      intros E. inversion E; subst; [congruence | assumption].
Qed.

Lemma mask_sum_count (ids : list (list Z)) :
  mask_sum (ne_zero ids) = masked_count ids.
Proof.
  unfold mask_sum, masked_count.
  rewrite flatten_ne_zero, filter_map_swap, length_map. reflexivity.
Qed.

Lemma masked_count_positive (ids : list (list Z)) :
  0 < masked_count ids <-> Exists (Exists (fun y => y <> 0)) ids.
Proof.
  unfold masked_count. rewrite positive_filter, Exists_concat.
  split; intros E; eapply Exists_impl; try exact E; intros row R;
    eapply Exists_impl; try exact R; intros y Y; simpl in *.
  - intros Z0. subst y. discriminate.
  - destruct (Z.eqb_spec y 0); [contradiction | reflexivity].
Qed.

Lemma first_batch_ok_healthy (data_loader : list Batch) :
  first_batch_ok data_loader <->
  data_loader <> [] /\ healthy metrics0 data_loader.
Proof.
  destruct data_loader as [|d rest]; simpl.
  - split; [contradiction | intros [N _]; congruence].
  - rewrite mask_sum_count, masked_count_positive. unfold nelement.
    split.
    + intros [N M]. split; [discriminate|]. split; [|exact M].
      destruct (is_next d); [congruence | simpl; lia].
    + intros [_ [N M]]. split; [|exact M].
      destruct (is_next d); [simpl in N; lia | discriminate].
Qed.

Section Further.
Context {T P O : Type} `{TorchFloat T} `{Network T P O}.
Local Abbreviation trainer := (@BERTTraining P O).

Lemma optimize_settings (self : trainer) (data : Batch) :
  settings (optimize self data) = settings self
  /\ training (model (optimize self data)) = training (model self).
Proof.
  unfold optimize, settings. destruct (adam_step _ _ _ _ _).
  split; reflexivity.
Qed.

Lemma train_loop_settings (data_loader : list Batch) :
  forall (self : trainer) (i : Z) (m : Metrics) (out : list Py.fstring),
    settings (final_self (train_loop self i data_loader m out))
      = settings self
    /\ training (model (final_self (train_loop self i data_loader m out)))
       = training (model self).
Proof.
  induction data_loader as [|d rest IH]; intros self i m out;
    cbn [train_loop]; [split; reflexivity|].
  destruct (optimize_settings self d) as [S Tr].
  destruct (batch_log (optimize self d) i (update_metrics self d m)
                      (batch_loss self d)) as [[line|]|e];
    cbn [final_self].
  - destruct (IH (optimize self d) (i + 1) (update_metrics self d m)
                 (out ++ [line])) as [S1 T1].
    split; congruence.
  - destruct (IH (optimize self d) (i + 1) (update_metrics self d m) out)
      as [S1 T1].
    split; congruence.
  - split; assumption.
Qed.

Lemma train_final_self (self : trainer) (epoch : Z)
    (data_loader : list Batch) :
  final_self (train self epoch data_loader) =
  final_self (train_loop (started self) 0 data_loader metrics0 []).
Proof.
  unfold train.
  destruct (status (train_loop (started self) 0 data_loader metrics0 []));
    [|reflexivity].
  destruct (epoch_line _ _ _); reflexivity.
Qed.

Lemma train_settings (self : trainer) (epoch : Z)
    (data_loader : list Batch) :
  settings (final_self (train self epoch data_loader)) = settings self
  /\ training (model (final_self (train self epoch data_loader))) = true.
Proof.
  rewrite train_final_self.
  destruct (train_loop_settings data_loader (started self) 0 metrics0 [])
    as [S Tr].
  split; [rewrite S; reflexivity | rewrite Tr; reflexivity].
Qed.

(** X1. A call of [train] returns only if [log_freq] is not 0 and the
    first batch exists and has an example and a masked position.  On
    batches PyTorch accepts this is also enough, and a call that does not
    return has raised [ZeroDivisionError]: the later batches and the epoch
    play no part in it. *)
Theorem train_returns_iff
    (self : trainer) (epoch : Z) (data_loader : list Batch) :
  (status (train self epoch data_loader) = Py.Return tt ->
   log_freq self <> 0 /\ first_batch_ok data_loader)
  /\ (accepted (started self) data_loader ->
      (log_freq self <> 0 /\ first_batch_ok data_loader ->
       status (train self epoch data_loader) = Py.Return tt)
      /\ (status (train self epoch data_loader) <> Py.Return tt ->
          status (train self epoch data_loader)
          = Py.Raise Py.ZeroDivisionError)).
Proof.
  split; [|intros _; split].
  - intros R. destruct (train_returned _ _ _ R) as (Hd & L & Hy).
    split; [exact L|]. apply first_batch_ok_healthy. split; assumption.
  - intros [L Ok]. apply first_batch_ok_healthy in Ok.
    destruct Ok as [Hd Hy]. rewrite train_returns by assumption.
    reflexivity.
  - intros R. apply (train_raised self epoch data_loader R).
Qed.

(** X2. [train] only reads what [__init__] stored: whatever the data and
    whether it returns or raises, the trainer it leaves has the learning
    rate, weight decay, betas, log frequency, device and criterion it was
    called with, and its model is in training mode.  So a trainer built by
    [__init__] ignores the label 0 in every call, first or later. *)
Theorem train_keeps_settings
    (self : trainer) (epoch : Z) (data_loader : list Batch) :
  let self' := final_self (train self epoch data_loader) in
  settings self' = settings self
  /\ training (model self') = true
  /\ (forall model0 lr0 weight_decay0 betas0 log_freq0 device0,
        self = init model0 lr0 weight_decay0 betas0 log_freq0 device0 ->
        constructed self /\ constructed self').
Proof.
  intros self'. destruct (train_settings self epoch data_loader) as [S Tr].
  split; [exact S|]. split; [exact Tr|].
  intros model0 lr0 weight_decay0 betas0 log_freq0 device0 E.
  assert (C : constructed self) by (subst self; reflexivity).
  split; [exact C|].
  unfold constructed in *. unfold settings in S.
  fold self' in S. congruence.
Qed.

Lemma epoch_line_any_epoch (epoch epoch' n : Z) (m : Metrics) :
  match epoch_line epoch n m with
  | Py.Return _ => exists line, epoch_line epoch' n m = Py.Return line
  | Py.Raise e => epoch_line epoch' n m = Py.Raise e
  end.
Proof.
  unfold epoch_line.
  destruct (Py.truediv (avg_loss m) (Py.PyInt n)) as [a|e]; cbn [Py.bind];
    [|reflexivity].
  destruct (accuracy (total_correct_NSP m) (total_element_NSP m)) as [q|e];
    cbn [Py.bind]; [|reflexivity].
  destruct (accuracy (total_correct_MLM m) (total_element_MLM m)) as [k|e];
    cbn [Py.bind]; [|reflexivity].
  eexists. reflexivity.
Qed.

(** X3. The [epoch] argument of [train] only labels the summary: two calls
    that differ in it alone leave the same trainer and accumulators, end
    the same way, and print the same lines up to the last one. *)
Theorem epoch_only_labels_the_summary
    (self : trainer) (epoch epoch' : Z) (data_loader : list Batch) :
  let r := train self epoch data_loader in
  let r' := train self epoch' data_loader in
  final_self r = final_self r'
  /\ final_metrics r = final_metrics r'
  /\ status r = status r'
  /\ length (stdout r) = length (stdout r')
  /\ removelast (stdout r) = removelast (stdout r').
Proof.
  intros r r'. subst r r'. unfold train.
  destruct (status (train_loop (started self) 0 data_loader metrics0 []))
    eqn:S.
  - pose proof (epoch_line_any_epoch epoch epoch'
        (Z.of_nat (length data_loader))
        (final_metrics (train_loop (started self) 0 data_loader
                                   metrics0 []))) as E.
    destruct (epoch_line epoch _ _) as [line|e].
    + destruct E as [line' E]. rewrite E. cbn.
      rewrite !length_app, !removelast_last. repeat split; reflexivity.
    + rewrite E. repeat split; reflexivity.
  - repeat split; reflexivity.
Qed.

End Further.

(** ** How many lines, and what the log frequency changes *)

Lemma ceil_step (i log_freq : Z) :
  0 < log_freq -> 0 <= i ->
  (i + 1 + log_freq - 1) / log_freq - (i + log_freq - 1) / log_freq =
  if i mod log_freq =? 0 then 1 else 0.
Proof.
  intros L Hi.
  pose proof (Z.div_mod i log_freq ltac:(lia)) as D.
  pose proof (Z.mod_pos_bound i log_freq L) as B.
  set (q := i / log_freq) in *. set (r := i mod log_freq) in *.
  assert (U : (i + 1 + log_freq - 1) / log_freq = q + 1).
  { symmetry. apply (Z.div_unique _ _ _ r); lia. }
  rewrite U. destruct (Z.eqb_spec r 0) as [R0|R0].
  - assert (V : (i + log_freq - 1) / log_freq = q).
    { symmetry. apply (Z.div_unique _ _ _ (log_freq - 1)); lia. }
    lia.
  - assert (V : (i + log_freq - 1) / log_freq = q + 1).
    { symmetry. apply (Z.div_unique _ _ _ (r - 1)); lia. }
    lia.
Qed.

Lemma length_every_from {A : Type} (log_freq : Z) (ls : list A) :
  0 < log_freq ->
  forall i, 0 <= i ->
    Z.of_nat (length (every_from i log_freq ls)) =
    (i + Z.of_nat (length ls) + log_freq - 1) / log_freq
    - (i + log_freq - 1) / log_freq.
Proof.
  intros L. induction ls as [|l ls IH]; intros i Hi.
  - simpl. rewrite Z.add_0_r. lia.
  - rewrite every_from_cons, length_app, Nat2Z.inj_add, IH by lia.
    pose proof (ceil_step i log_freq L Hi) as C.
    cbn [length].
    replace (i + 1 + Z.of_nat (length ls) + log_freq - 1)
      with (i + Z.of_nat (S (length ls)) + log_freq - 1) by lia.
    destruct (i mod log_freq =? 0); simpl length; lia.
Qed.

Lemma every_from_opp {A : Type} (i log_freq : Z) (ls : list A) :
  every_from i (- log_freq) ls = every_from i log_freq ls.
Proof.
  unfold every_from. f_equal. apply filter_ext. intros [k l]. simpl fst.
  destruct (Z.eq_dec log_freq 0) as [Z0|N]; [subst; reflexivity|].
  destruct (Z.eqb_spec ((i + Z.of_nat k) mod log_freq) 0) as [E|E].
  - apply Z.eqb_eq. apply Z.mod_divide; [lia|].
    apply Z.divide_opp_l. apply Z.mod_divide; assumption.
  - apply Z.eqb_neq. intros E'. apply E.
    apply Z.mod_divide; [assumption|].
    apply Z.divide_opp_l. apply Z.mod_divide; [lia | assumption].
Qed.

Section Frequency.
Context {T P O : Type} `{TorchFloat T} `{Network T P O}.
Local Abbreviation trainer := (@BERTTraining P O).

Lemma fst_run_with_log_freq (data_loader : list Batch) :
  forall (self : trainer) (m : Metrics) (log_freq0 : Z),
    fst (run (with_log_freq self log_freq0) m data_loader) =
    with_log_freq (fst (run self m data_loader)) log_freq0.
Proof.
  induction data_loader as [|d rest IH]; intros self m lf; simpl;
    [reflexivity|].
  rewrite optimize_with_log_freq. apply IH.
Qed.

Lemma line_at_with_log_freq (self : trainer) (log_freq0 : Z)
    (data_loader : list Batch) (i : nat) :
  line_at (with_log_freq self log_freq0) data_loader i =
  line_at self data_loader i.
Proof.
  unfold line_at, metrics_after.
  change (started (with_log_freq self log_freq0))
    with (with_log_freq (started self) log_freq0).
  rewrite losses_with_log_freq, run_with_log_freq. reflexivity.
Qed.

Lemma summary_line_with_log_freq (self : trainer) (log_freq0 epoch : Z)
    (data_loader : list Batch) :
  summary_line (with_log_freq self log_freq0) epoch data_loader =
  summary_line self epoch data_loader.
Proof.
  unfold summary_line, metrics_after.
  change (started (with_log_freq self log_freq0))
    with (with_log_freq (started self) log_freq0).
  rewrite losses_with_log_freq, run_with_log_freq. reflexivity.
Qed.

(** What a call computes, for a log frequency that is not 0. *)
Lemma train_with_log_freq (self : trainer) (log_freq0 epoch : Z)
    (data_loader : list Batch) :
  log_freq0 <> 0 ->
  let r := train (with_log_freq self log_freq0) epoch data_loader in
  (first_batch_ok data_loader ->
   final_self r =
     with_log_freq (fst (run (started self) metrics0 data_loader)) log_freq0
   /\ final_metrics r = metrics_after self data_loader (length data_loader)
   /\ stdout r =
        every log_freq0
              (map (line_at self data_loader) (seq 0 (length data_loader)))
        ++ [summary_line self epoch data_loader]
   /\ status r = Py.Return tt)
  /\ (~ first_batch_ok data_loader ->
      final_self r =
        with_log_freq (final_self (train (with_log_freq self 1) epoch
                                         data_loader)) log_freq0
      /\ final_metrics r =
           final_metrics (train (with_log_freq self 1) epoch data_loader)
      /\ stdout r = []
      /\ status r = Py.Raise Py.ZeroDivisionError).
Proof.
  intros L r. subst r. split.
  - intros Ok. apply first_batch_ok_healthy in Ok. destruct Ok as [Hd Hy].
    rewrite train_returns by assumption. cbn [final_self final_metrics
      stdout status log_freq with_log_freq].
    change (started (with_log_freq self log_freq0))
      with (with_log_freq (started self) log_freq0).
    rewrite fst_run_with_log_freq, summary_line_with_log_freq.
    unfold metrics_after.
    change (started (with_log_freq self log_freq0))
      with (with_log_freq (started self) log_freq0).
    rewrite run_with_log_freq.
    repeat split. f_equal. f_equal. apply map_ext. intros i.
    apply line_at_with_log_freq.
  - intros Bad. destruct data_loader as [|d rest].
    + rewrite !train_empty. repeat split.
    + assert (Z0 : total_element_NSP
                     (update_metrics (started self) d metrics0) = 0
                   \/ total_element_MLM
                        (update_metrics (started self) d metrics0) = 0).
      { rewrite update_metrics_eq. cbn [total_element_NSP total_element_MLM
          metrics0].
        rewrite mask_sum_count. unfold nelement.
        destruct (Z.eq_dec (Z.of_nat (length (is_next d))) 0) as [N|N];
          [left; lia|].
        destruct (Z.eq_dec (masked_count (mask_ids d)) 0) as [M|M];
          [right; lia|].
        exfalso. apply Bad. simpl. split.
        - destruct (is_next d); [simpl in N; lia | discriminate].
        - apply masked_count_positive. unfold masked_count in *. lia. }
      rewrite !train_raises_first by (right; exact Z0).
      cbn [final_self final_metrics stdout status].
      change (started (with_log_freq self log_freq0))
        with (with_log_freq (started self) log_freq0).
      change (started (with_log_freq self 1))
        with (with_log_freq (started self) 1).
      rewrite !optimize_with_log_freq. repeat split.
Qed.

(** X4. With a positive log frequency, a call that returns has printed
    [ceil(n / log_freq)] lines for its [n] batches, and the summary. *)
Theorem number_of_lines_printed
    (self : trainer) (epoch : Z) (data_loader : list Batch) :
  0 < log_freq self ->
  status (train self epoch data_loader) = Py.Return tt ->
  Z.of_nat (length (stdout (train self epoch data_loader))) =
  (Z.of_nat (length data_loader) + log_freq self - 1) / log_freq self + 1.
Proof.
  intros L R. destruct (train_returned _ _ _ R) as (Hd & L0 & Hy).
  rewrite train_returns by assumption. cbn [stdout].
  rewrite length_app, Nat2Z.inj_add. unfold every.
  rewrite length_every_from by lia.
  rewrite length_map, length_seq. cbn [length].
  replace (0 + log_freq self - 1) with (log_freq self - 1) by lia.
  rewrite (Z.div_small (log_freq self - 1)) by lia. simpl. lia.
Qed.

(** X5. A log frequency that is not 0 changes what is printed and nothing
    else: two calls that differ in it alone end the same way, with the same
    accumulators, parameters and optimizer state, and when they return they
    have printed the same summary line. *)
Theorem log_freq_only_changes_the_lines
    (self : trainer) (a b epoch : Z) (data_loader : list Batch) :
  a <> 0 -> b <> 0 ->
  let r := train (with_log_freq self a) epoch data_loader in
  let r' := train (with_log_freq self b) epoch data_loader in
  status r = status r'
  /\ final_metrics r = final_metrics r'
  /\ parameters (model (final_self r)) = parameters (model (final_self r'))
  /\ optimizer (final_self r) = optimizer (final_self r')
  /\ (status r = Py.Return tt -> last (stdout r) [] = last (stdout r') []).
Proof.
  intros A B r r'. subst r r'.
  destruct (train_with_log_freq self a epoch data_loader A) as [Ra Fa].
  destruct (train_with_log_freq self b epoch data_loader B) as [Rb Fb].
  cbv zeta in *.
  assert (D : first_batch_ok data_loader \/ ~ first_batch_ok data_loader).
  { rewrite first_batch_ok_healthy.
    destruct data_loader as [|d rest];
      [right; intros [N _]; congruence|].
    simpl. unfold nelement.
    pose proof (mask_sum_nonneg (ne_zero (mask_ids d))).
    destruct (Z.eq_dec (Z.of_nat (length (is_next d))) 0);
      [right; lia|].
    destruct (Z.eq_dec (mask_sum (ne_zero (mask_ids d))) 0);
      [right; lia|].
    left. split; [discriminate | lia]. }
  destruct D as [Ok|Bad].
  - destruct (Ra Ok) as (S1 & M1 & O1 & R1).
    destruct (Rb Ok) as (S2 & M2 & O2 & R2).
    rewrite S1, S2, M1, M2, O1, O2, R1, R2, !last_last.
    repeat split.
  - destruct (Fa Bad) as (S1 & M1 & O1 & R1).
    destruct (Fb Bad) as (S2 & M2 & O2 & R2).
    rewrite S1, S2, M1, M2, O1, O2, R1, R2. repeat split.
Qed.

(** X6. A negative log frequency logs like its absolute value: [i %
    log_freq] is 0 for the same indices, so the call prints the same lines
    and ends the same way. *)
Theorem negative_log_freq_logs_alike
    (self : trainer) (log_freq0 epoch : Z) (data_loader : list Batch) :
  let r := train (with_log_freq self (- log_freq0)) epoch data_loader in
  let r' := train (with_log_freq self log_freq0) epoch data_loader in
  stdout r = stdout r'
  /\ status r = status r'
  /\ final_metrics r = final_metrics r'.
Proof.
  intros r r'. subst r r'.
  destruct (Z.eq_dec log_freq0 0) as [Z0|N]; [subst; repeat split|].
  destruct (train_with_log_freq self (- log_freq0) epoch data_loader
              ltac:(lia)) as [Ra Fa].
  destruct (train_with_log_freq self log_freq0 epoch data_loader N)
    as [Rb Fb].
  cbv zeta in *.
  assert (D : first_batch_ok data_loader \/ ~ first_batch_ok data_loader).
  { rewrite first_batch_ok_healthy.
    destruct data_loader as [|d rest];
      [right; intros [E _]; congruence|].
    simpl. unfold nelement.
    pose proof (mask_sum_nonneg (ne_zero (mask_ids d))).
    destruct (Z.eq_dec (Z.of_nat (length (is_next d))) 0);
      [right; lia|].
    destruct (Z.eq_dec (mask_sum (ne_zero (mask_ids d))) 0);
      [right; lia|].
    left. split; [discriminate | lia]. }
  destruct D as [Ok|Bad].
  - destruct (Ra Ok) as (S1 & M1 & O1 & R1).
    destruct (Rb Ok) as (S2 & M2 & O2 & R2).
    rewrite M1, M2, O1, O2, R1, R2. unfold every.
    rewrite every_from_opp. repeat split.
  - destruct (Fa Bad) as (S1 & M1 & O1 & R1).
    destruct (Fb Bad) as (S2 & M2 & O2 & R2).
    rewrite M1, M2, O1, O2, R1, R2. repeat split.
Qed.

Lemma run_totals (data_loader : list Batch) :
  forall (self : trainer) (m : Metrics),
    total_element_NSP (snd (run self m data_loader)) =
      total_element_NSP m
      + zsum (map (fun d => Z.of_nat (length (is_next d))) data_loader)
    /\ total_element_MLM (snd (run self m data_loader)) =
         total_element_MLM m
         + zsum (map (fun d => masked_count (mask_ids d)) data_loader).
Proof.
  induction data_loader as [|d rest IH]; intros self m; simpl;
    [split; lia|].
  destruct (IH (optimize self d) (update_metrics self d m)) as [N M].
  rewrite N, M, update_metrics_eq. simpl. rewrite mask_sum_count.
  unfold nelement. split; lia.
Qed.

(** X7. The denominators of the two accuracies depend on the data alone:
    after [n] batches of an epoch [total_element_NSP] is the number of
    [is_next] labels of those batches and [total_element_MLM] the number of
    their [mask_ids] entries that are not 0, whatever the network predicts;
    a call that returns ends with the totals of the whole data source. *)
Theorem denominators_are_data_totals
    (self : trainer) (epoch : Z) (data_loader : list Batch) :
  (forall n,
     total_element_NSP (metrics_after self data_loader n) =
       zsum (map (fun d => Z.of_nat (length (is_next d)))
                 (firstn n data_loader))
     /\ total_element_MLM (metrics_after self data_loader n) =
          zsum (map (fun d => masked_count (mask_ids d))
                    (firstn n data_loader)))
  /\ (status (train self epoch data_loader) = Py.Return tt ->
      total_element_NSP (final_metrics (train self epoch data_loader)) =
        zsum (map (fun d => Z.of_nat (length (is_next d))) data_loader)
      /\ total_element_MLM (final_metrics (train self epoch data_loader)) =
           zsum (map (fun d => masked_count (mask_ids d)) data_loader)).
Proof.
  assert (A : forall n,
     total_element_NSP (metrics_after self data_loader n) =
       zsum (map (fun d => Z.of_nat (length (is_next d)))
                 (firstn n data_loader))
     /\ total_element_MLM (metrics_after self data_loader n) =
          zsum (map (fun d => masked_count (mask_ids d))
                    (firstn n data_loader))).
  { intros n. unfold metrics_after.
    destruct (run_totals (firstn n data_loader) (started self) metrics0)
      as [N M].
    rewrite N, M. split; reflexivity. }
  split; [exact A|].
  intros R. destruct (train_returned _ _ _ R) as (Hd & L & Hy).
  rewrite train_returns by assumption. cbn [final_metrics].
  destruct (A (length data_loader)) as [N M].
  rewrite firstn_all in N, M. split; assumption.
Qed.

End Frequency.

(** ** What is reported *)

Lemma every_from_In {A : Type} (log_freq : Z) (f : nat -> A) (x : A) :
  forall (n s : nat) (i : Z),
    In x (every_from i log_freq (map f (seq s n))) ->
    exists k, (k < n)%nat
              /\ (i + Z.of_nat k) mod log_freq = 0
              /\ x = f (s + k)%nat.
Proof.
  induction n as [|n IH]; intros s i Hx; [contradiction|].
  cbn [seq map] in Hx. rewrite every_from_cons in Hx.
  apply in_app_or in Hx. destruct Hx as [Hx|Hx].
  - destruct (Z.eqb_spec (i mod log_freq) 0) as [E|E]; [|contradiction].
    destruct Hx as [Hx|[]]. exists 0%nat.
    rewrite Z.add_0_r, Nat.add_0_r. repeat split; [lia | exact E | auto].
  - destruct (IH (S s) (i + 1) Hx) as (k & Hk & M & X).
    exists (S k). split; [lia|]. split.
    + replace (i + Z.of_nat (S k)) with (i + 1 + Z.of_nat k) by lia.
      exact M.
    + rewrite X. f_equal. lia.
Qed.

Section Reported.
Context {T P O : Type} `{TorchFloat T} `{Network T P O}.
Local Abbreviation trainer := (@BERTTraining P O).

(** What a call that returns has printed, whatever its log frequency, in
    terms of the lines of the batches. *)
Lemma train_returned_stdout (self : trainer) (epoch : Z)
    (data_loader : list Batch) :
  status (train self epoch data_loader) = Py.Return tt ->
  stdout (train self epoch data_loader) =
    every (log_freq self)
          (map (line_at self data_loader) (seq 0 (length data_loader)))
    ++ [summary_line self epoch data_loader]
  /\ status (train (with_log_freq self 1) epoch data_loader) = Py.Return tt
  /\ stdout (train (with_log_freq self 1) epoch data_loader) =
       map (line_at self data_loader) (seq 0 (length data_loader))
       ++ [summary_line self epoch data_loader]
  /\ final_metrics (train self epoch data_loader) =
       metrics_after self data_loader (length data_loader)
  /\ data_loader <> [].
Proof.
  intros R. destruct (train_returned _ _ _ R) as (Hd & L & Hy).
  rewrite (train_returns self epoch data_loader Hd L Hy).
  rewrite (train_returns (with_log_freq self 1) epoch data_loader Hd
             ltac:(discriminate) Hy).
  cbn [stdout status final_metrics log_freq with_log_freq].
  rewrite every_one, summary_line_with_log_freq.
  rewrite (map_ext _ _ (line_at_with_log_freq self 1 data_loader)).
  repeat split. exact Hd.
Qed.

Lemma loss_fields (self : trainer) (data_loader : list Batch) :
  map loss_field
      (map (line_at self data_loader) (seq 0 (length data_loader))) =
  losses (started self) data_loader.
Proof.
  rewrite map_map.
  etransitivity; [|symmetry; apply (list_index PrimFloat.nan)].
  rewrite length_losses. reflexivity.
Qed.

Lemma nth_line_at (self : trainer) (data_loader : list Batch)
    (rest : list Py.fstring) (k : nat) :
  (k < length data_loader)%nat ->
  nth k (map (line_at self data_loader) (seq 0 (length data_loader))
         ++ rest) [] =
  line_at self data_loader k.
Proof.
  intros Hk. rewrite app_nth1 by (rewrite length_map, length_seq; exact Hk).
  rewrite (nth_indep _ [] (line_at self data_loader 0))
    by (rewrite length_map, length_seq; exact Hk).
  rewrite map_nth, seq_nth by exact Hk. reflexivity.
Qed.

(** C5. In a call that returns, the running average reported after the
    n-th batch ([n >= 1]) is the sum of the losses of the first [n]
    batches, added in order from 0, divided by [n].  The losses are those
    the lines print ([Loss:]), one per batch when [log_freq] is 1, and the
    running average is the first field of the line of batch [n - 1].  With
    another log frequency the call prints a sub-list of the same lines,
    those whose index is a multiple of it, and the same summary: what is
    reported does not depend on the log frequency.  The [Total-Loss] of the
    summary is the sum of all the losses, which is what [avg_loss] holds at
    the end, divided by the number of batches. *)
Theorem running_average_is_sum_over_count
    (self : trainer) (epoch : Z) (data_loader : list Batch) :
  status (train self epoch data_loader) = Py.Return tt ->
  let out := stdout (train self epoch data_loader) in
  let every_batch := stdout (train (with_log_freq self 1) epoch data_loader) in
  let ls := map loss_field (removelast every_batch) in
  status (train (with_log_freq self 1) epoch data_loader) = Py.Return tt
  /\ ls = losses (started self) data_loader
  /\ length ls = length data_loader
  /\ (forall n, (1 <= n <= length data_loader)%nat ->
        first_field (nth (n - 1) every_batch []) =
        Py.PyFloat (PrimFloat.div (fsum (firstn n ls))
                                  (Py.float_of_int (Z.of_nat n))))
  /\ removelast out = every (log_freq self) (removelast every_batch)
  /\ last out [] = last every_batch []
  /\ nth 1 (fields (last out [])) (Py.PyInt (-1)) =
       Py.PyFloat (PrimFloat.div (fsum ls)
                     (Py.float_of_int (Z.of_nat (length data_loader))))
  /\ avg_loss (final_metrics (train self epoch data_loader)) =
       Py.PyFloat (fsum ls).
Proof.
  intros R out every_batch ls. subst out every_batch ls.
  destruct (train_returned_stdout self epoch data_loader R)
    as (E & R1 & E1 & M & Hd).
  rewrite E, E1, M, !removelast_last, !last_last, loss_fields.
  split; [exact R1|]. split; [reflexivity|].
  split; [apply length_losses|]. split; [|split; [|split; [|split]]].
  - intros n [Hn Hl]. rewrite nth_line_at by lia.
    replace n with (S (n - 1)) at 2 3 by lia. reflexivity.
  - reflexivity.
  - reflexivity.
  - reflexivity.
  - destruct (avg_loss_after self data_loader (length data_loader))
      as [_ A].
    cbv zeta in A. rewrite A.
    + rewrite firstn_all2 by (rewrite length_losses; apply Nat.le_refl).
      reflexivity.
    + destruct data_loader; [congruence | simpl; lia].
    + exact Hd.
Qed.

(** C6, as the code has it. A line is printed for a batch only when its
    0-based index is a multiple of [log_freq], and for every such batch
    when the call returns: what a call that returns has printed is the
    lines of those batches, in order, followed by the summary; with
    [log_freq = 1] that is one line per batch, index 0 included, and with
    [log_freq] above the number of batches the line of index 0 only.  The
    fields of the line of batch [i] are the running average of the losses,
    the two running accuracies, and the loss of batch [i] itself. *)
Theorem log_line_every_log_freq
    (self : trainer) (epoch : Z) (data_loader : list Batch) :
  let ls := losses (started self) data_loader in
  let lines := map (line_at self data_loader) (seq 0 (length data_loader)) in
  let out := stdout (train self epoch data_loader) in
  let summary := summary_line self epoch data_loader in
  (forall line,
     In line out ->
     line = summary
     \/ exists i, (i < length data_loader)%nat
                  /\ Z.of_nat i mod log_freq self = 0
                  /\ line = line_at self data_loader i)
  /\ (status (train self epoch data_loader) = Py.Return tt ->
      out = every (log_freq self) lines ++ [summary]
      /\ (log_freq self = 1 -> out = lines ++ [summary])
      /\ (Z.of_nat (length data_loader) < log_freq self ->
          out = [line_at self data_loader 0; summary]))
  /\ (forall i,
        let m := metrics_after self data_loader (S i) in
        fields (line_at self data_loader i) =
        [Py.PyFloat (PrimFloat.div (fsum (firstn (S i) ls))
                                   (Py.float_of_int (Z.of_nat (S i))));
         Py.PyFloat (percent (total_correct_NSP m) (total_element_NSP m));
         Py.PyFloat (percent (total_correct_MLM m) (total_element_MLM m));
         Py.PyFloat (nth i ls PrimFloat.nan)]).
Proof.
  intros ls lines out summary.
  assert (Ret : status (train self epoch data_loader) = Py.Return tt ->
                out = every (log_freq self) lines ++ [summary]).
  { intros R.
    destruct (train_returned_stdout self epoch data_loader R) as (E & _).
    exact E. }
  split; [|split].
  - intros line Hin.
    destruct (status (train self epoch data_loader)) as [[]|e] eqn:St.
    + rewrite (Ret eq_refl) in Hin. apply in_app_or in Hin.
      destruct Hin as [Hin|[Hin|[]]]; [right | left; auto].
      unfold every in Hin. subst lines.
      destruct (every_from_In _ _ _ _ _ _ Hin) as (k & Hk & Mk & Xk).
      exists k. rewrite Z.add_0_l in Mk. repeat split; assumption.
    + assert (N : status (train self epoch data_loader) <> Py.Return tt)
        by (rewrite St; discriminate).
      destruct (train_raised self epoch data_loader N) as [E0 _].
      subst out. rewrite E0 in Hin. contradiction.
  - intros R. pose proof (Ret R) as E.
    split; [exact E|]. split.
    + intros L1. rewrite E, L1, every_one. reflexivity.
    + intros Big. rewrite E. subst lines.
      destruct (train_returned _ _ _ R) as (Hd & _).
      destruct data_loader as [|d rest]; [congruence|].
      cbn [length seq map]. rewrite every_large; [reflexivity|].
      cbn [length]. rewrite length_map, length_seq. simpl length in Big.
      lia.
  - intros i. reflexivity.
Qed.

End Reported.


(** ** The epochs of [main] *)

Section Epochs.
Context {T P O : Type} `{TorchFloat T} `{Network T P O}.
Local Abbreviation trainer := (@BERTTraining P O).

Lemma started_training (self : trainer) :
  training (model self) = true -> started self = self.
Proof.
  destruct self as [[p t] ? ? ? ? ? ? ?]. simpl. intros E. subst t.
  reflexivity.
Qed.

Lemma fst_run_metrics (data_loader : list Batch) :
  forall (self : trainer) (m m' : Metrics),
    fst (run self m data_loader) = fst (run self m' data_loader).
Proof.
  induction data_loader as [|d rest IH]; intros self m m'; simpl;
    [reflexivity | apply IH].
Qed.

Lemma fst_run_app (self : trainer) (m m' : Metrics) (l l' : list Batch) :
  fst (run self m (l ++ l')) = fst (run (fst (run self m l)) m' l').
Proof. rewrite run_app. apply fst_run_metrics. Qed.

Lemma all_batches_S (train_loader : Z -> list Batch) (epoch : Z) (n : nat) :
  all_batches train_loader epoch (S n) =
  train_loader epoch ++ all_batches train_loader (epoch + 1) n.
Proof.
  unfold all_batches. cbn [seq map concat].
  rewrite Z.add_0_r, <- seq_shift, map_map. f_equal. f_equal.
  apply map_ext. intros k. f_equal. lia.
Qed.

Lemma train_log_freq (self : trainer) (epoch : Z) (data_loader : list Batch) :
  log_freq (final_self (train self epoch data_loader)) = log_freq self.
Proof.
  destruct (train_settings self epoch data_loader) as [S _].
  unfold settings in S. congruence.
Qed.

Lemma first_batch_ok_dec (data_loader : list Batch) :
  first_batch_ok data_loader \/ ~ first_batch_ok data_loader.
Proof.
  rewrite first_batch_ok_healthy.
  destruct data_loader as [|d rest]; [right; intros [E _]; congruence|].
  simpl. unfold nelement.
  pose proof (mask_sum_nonneg (ne_zero (mask_ids d))).
  destruct (Z.eq_dec (Z.of_nat (length (is_next d))) 0); [right; lia|].
  destruct (Z.eq_dec (mask_sum (ne_zero (mask_ids d))) 0); [right; lia|].
  left. split; [discriminate | lia].
Qed.

(** One epoch of the loop, by cases on its first batch. *)
Lemma train_cases (self : trainer) (epoch : Z) (data_loader : list Batch) :
  log_freq self <> 0 ->
  (first_batch_ok data_loader /\
   train self epoch data_loader =
   {| final_self := fst (run (started self) metrics0 data_loader);
      final_metrics := metrics_after self data_loader (length data_loader);
      stdout :=
        every (log_freq self)
              (map (line_at self data_loader) (seq 0 (length data_loader)))
        ++ [summary_line self epoch data_loader];
      status := Py.Return tt |})
  \/ (~ first_batch_ok data_loader /\
      stdout (train self epoch data_loader) = [] /\
      status (train self epoch data_loader) = Py.Raise Py.ZeroDivisionError).
Proof.
  intros L. destruct (first_batch_ok_dec data_loader) as [Ok|Bad].
  - left. split; [exact Ok|]. apply first_batch_ok_healthy in Ok.
    destruct Ok as [Hd Hy]. apply train_returns; assumption.
  - right. split; [exact Bad|]. apply train_raised. intros R.
    apply Bad. apply first_batch_ok_healthy.
    destruct (train_returned _ _ _ R) as (Hd & _ & Hy). split; assumption.
Qed.

Lemma epochs_loop_exit (train_loader : Z -> list Batch) (todo : nat) :
  forall (self : trainer) (epoch : Z) (out : list Py.fstring),
    log_freq self <> 0 ->
    let r := epochs_loop self train_loader epoch todo out in
    (exit r = Py.Return tt <->
     forall k, (k < todo)%nat ->
               first_batch_ok (train_loader (epoch + Z.of_nat k)))
    /\ (exit r <> Py.Return tt -> exit r = Py.Raise Py.ZeroDivisionError)
    /\ saved r = None.
Proof.
  induction todo as [|todo IH]; intros self epoch out L; cbn [epochs_loop].
  - cbn. split; [|split]; [|congruence | reflexivity].
    split; [intros _ k Hk; lia | reflexivity].
  - destruct (train_cases self epoch (train_loader epoch) L)
      as [[Ok E]|(Bad & _ & R)].
    + rewrite E. cbn [status final_self stdout].
      assert (L' : log_freq (fst (run (started self) metrics0
                                      (train_loader epoch))) <> 0).
      { rewrite run_log_freq. exact L. }
      destruct (IH _ (epoch + 1) (out ++ every (log_freq self)
                  (map (line_at self (train_loader epoch))
                       (seq 0 (length (train_loader epoch))))
                  ++ [summary_line self epoch (train_loader epoch)]) L')
        as (I & F & Sv).
      cbv zeta in I, F, Sv. split; [|split]; [|exact F | exact Sv].
      rewrite I. split.
      * intros A [|k] Hk; [rewrite Z.add_0_r; exact Ok|].
        replace (epoch + Z.of_nat (S k)) with (epoch + 1 + Z.of_nat k)
          by lia.
        apply A. lia.
      * intros A k Hk.
        replace (epoch + 1 + Z.of_nat k) with (epoch + Z.of_nat (S k))
          by lia.
        apply A. lia.
    + rewrite R. cbn [exit saved].
      split; [|split]; [|reflexivity | reflexivity].
      split; [discriminate|].
      intros A. exfalso. apply Bad.
      specialize (A 0%nat ltac:(lia)). rewrite Z.add_0_r in A. exact A.
Qed.

Lemma run_training (data_loader : list Batch) :
  forall (self : trainer) (m : Metrics),
    training (model (fst (run self m data_loader))) = training (model self).
Proof.
  induction data_loader as [|d rest IH]; intros self m; simpl;
    [reflexivity|].
  rewrite IH. apply optimize_settings.
Qed.

Lemma epochs_loop_trained (train_loader : Z -> list Batch) (todo : nat) :
  forall (self : trainer) (epoch : Z) (out : list Py.fstring),
    log_freq self <> 0 -> training (model self) = true ->
    let r := epochs_loop self train_loader epoch todo out in
    exit r = Py.Return tt ->
    trained r =
      fst (run self metrics0 (all_batches train_loader epoch todo)).
Proof.
  induction todo as [|todo IH]; intros self epoch out L Tr;
    cbn [epochs_loop].
  - cbn. reflexivity.
  - destruct (train_cases self epoch (train_loader epoch) L)
      as [[Ok E]|(Bad & _ & R)].
    + rewrite E. cbn [status final_self stdout].
      rewrite (started_training self Tr).
      assert (L' : log_freq (fst (run self metrics0 (train_loader epoch)))
                   <> 0) by (rewrite run_log_freq; exact L).
      assert (Tr' : training (model (fst (run self metrics0
                                              (train_loader epoch)))) = true)
        by (rewrite run_training; exact Tr).
      intros R. rewrite (IH _ (epoch + 1) _ L' Tr' R), all_batches_S.
      symmetry. apply fst_run_app.
    + rewrite R. cbn [exit]. discriminate.
Qed.

Lemma epochs_loop_count (train_loader : Z -> list Batch) (todo : nat) :
  forall (self : trainer) (epoch : Z) (out : list Py.fstring),
    0 < log_freq self ->
    let r := epochs_loop self train_loader epoch todo out in
    exit r = Py.Return tt ->
    Z.of_nat (length (printed r)) =
    Z.of_nat (length out)
    + zsum (map (fun k =>
              (Z.of_nat (length (train_loader (epoch + Z.of_nat k)))
               + log_freq self - 1) / log_freq self + 1)
            (seq 0 todo)).
Proof.
  induction todo as [|todo IH]; intros self epoch out L;
    cbn [epochs_loop].
  - cbn. lia.
  - destruct (train_cases self epoch (train_loader epoch) ltac:(lia))
      as [[Ok E]|(Bad & _ & R)].
    + rewrite E. cbn [status final_self stdout].
      assert (L' : 0 < log_freq (fst (run (started self) metrics0
                                          (train_loader epoch))))
        by (rewrite run_log_freq; exact L).
      intros R. rewrite (IH _ (epoch + 1) _ L' R), run_log_freq.
      rewrite !length_app, !Nat2Z.inj_add. unfold every.
      rewrite length_every_from by lia.
      rewrite length_map, length_seq.
      replace (0 + log_freq self - 1) with (log_freq self - 1) by lia.
      rewrite (Z.div_small (log_freq self - 1)) by lia.
      cbn [seq map zsum fold_right length]. rewrite Z.add_0_r.
      rewrite <- seq_shift, map_map.
      rewrite (zsum_ext
        (fun k => (Z.of_nat (length (train_loader (epoch + Z.of_nat (S k))))
                   + log_freq self - 1) / log_freq self + 1)
        (fun k => (Z.of_nat (length (train_loader (epoch + 1 + Z.of_nat k)))
                   + log_freq self - 1) / log_freq self + 1)).
      { change (log_freq (started self)) with (log_freq self).
        rewrite !Z.add_0_l. simpl Z.of_nat. lia. }
      intros k _.
      replace (epoch + Z.of_nat (S k)) with (epoch + 1 + Z.of_nat k) by lia.
      reflexivity.
    + rewrite R. cbn [exit]. discriminate.
Qed.

Lemma train_lines (self : trainer) (epoch : Z) (data_loader : list Batch) :
  Forall (fun l => length l = 8%nat) (stdout (train self epoch data_loader)).
Proof.
  pose proof (train_loop_shapes data_loader (started self) 0 metrics0 []
                (Forall_nil _)) as F.
  assert (F' : Forall (fun l : Py.fstring => length l = 8%nat)
                 (stdout (train_loop (started self) 0 data_loader
                                     metrics0 []))).
  { eapply Forall_impl; [|exact F]. intros l Hl.
    apply (f_equal (@length _)) in Hl. unfold shape in Hl.
    rewrite length_map in Hl. exact Hl. }
  unfold train.
  destruct (status (train_loop (started self) 0 data_loader metrics0 []));
    [|exact F'].
  destruct (epoch_line epoch (Z.of_nat (length data_loader))
              (final_metrics (train_loop (started self) 0 data_loader
                                         metrics0 []))) as [line|] eqn:E;
    cbn [stdout]; [|exact F'].
  apply Forall_app. split; [exact F'|]. constructor; [|constructor].
  rewrite (epoch_line_returned _ _ _ _ E). reflexivity.
Qed.

Lemma epochs_loop_lines (train_loader : Z -> list Batch) (todo : nat)
    (Q : Py.fstring -> Prop) :
  (forall l : Py.fstring, length l = 8%nat -> Q l) ->
  forall (self : trainer) (epoch : Z) (out : list Py.fstring),
    Forall Q out ->
    Forall Q (printed (epochs_loop self train_loader epoch todo out)).
Proof.
  intros Q8. induction todo as [|todo IH]; intros self epoch out F;
    cbn [epochs_loop]; [exact F|].
  assert (F' : Forall Q (out ++ stdout (train self epoch
                                              (train_loader epoch)))).
  { apply Forall_app. split; [exact F|].
    eapply Forall_impl; [|apply train_lines]. exact Q8. }
  destruct (status (train self epoch (train_loader epoch)));
    [apply IH; exact F' | exact F'].
Qed.

(** X8. [main] saves the model only if each of its 30 epochs starts with a
    batch that has an example and a masked position: when it returns, that
    holds, the file holds the parameters of the trained model and the last
    line printed is ["Training completed"]; when it does not return, no file
    is written and that line is never printed.  On batches PyTorch accepts
    the condition is also enough for [main] to return, and a [main] that
    does not return was left by the [ZeroDivisionError] of the first epoch
    that fails. *)
Theorem main_saves_iff_every_epoch_trains
    (device0 : string) (bert : P) (nelements : list Z)
    (train_loader : Z -> list Batch) :
  let r := main device0 bert nelements train_loader in
  (exit r = Py.Return tt ->
   (forall k, (k < 30)%nat -> first_batch_ok (train_loader (Z.of_nat k)))
   /\ saved r = Some ("trained_model/bert.pth"%string,
                      parameters (model (trained r)))
   /\ last (printed r) [] = [Py.Lit "Training completed"])
  /\ (exit r <> Py.Return tt ->
      saved r = None
      /\ ~ In [Py.Lit "Training completed"] (printed r))
  /\ (accepted (main_trainer device0 bert) (all_batches train_loader 0 30) ->
      ((forall k, (k < 30)%nat ->
                  first_batch_ok (train_loader (Z.of_nat k))) ->
       exit r = Py.Return tt)
      /\ (exit r <> Py.Return tt ->
          exit r = Py.Raise Py.ZeroDivisionError)).
Proof.
  intros r. subst r. unfold main.
  set (r0 := epochs_loop (main_trainer device0 bert) train_loader 0 30
                         [parameters_line nelements]).
  destruct (epochs_loop_exit train_loader 30 (main_trainer device0 bert) 0
              [parameters_line nelements] ltac:(discriminate))
    as (I & F & Sv).
  cbv zeta in I, F, Sv. fold r0 in I, F, Sv.
  assert (I' : exit r0 = Py.Return tt <->
               forall k, (k < 30)%nat ->
                         first_batch_ok (train_loader (Z.of_nat k))).
  { rewrite I. split; intros A k Hk; exact (A k Hk). }
  pose proof (epochs_loop_lines train_loader 30
                (fun l => l <> [Py.Lit "Training completed"])
                ltac:(intros l E8 E; subst l; discriminate)
                (main_trainer device0 bert) 0 [parameters_line nelements]
                ltac:(constructor; [discriminate | constructor])) as Q.
  fold r0 in Q. clearbody r0.
  destruct r0 as [tr pr sv [[]|e]]; cbn [exit saved printed trained] in *.
  - split; [|split].
    + intros _. split; [apply I'; reflexivity|].
      split; [reflexivity | apply last_last].
    + intros N. congruence.
    + intros _. split; [reflexivity | congruence].
  - split; [|split].
    + discriminate.
    + intros _. split; [exact Sv|].
      intros In_. rewrite Forall_forall in Q. exact (Q _ In_ eq_refl).
    + intros _. split.
      * intros A. apply I'. exact A.
      * exact F.
Qed.

(** X9. The epochs share one model and one optimizer: when [main] returns,
    the parameters it saved are those reached by taking the optimizer step
    of every batch of every epoch, in the order the loader yielded them, as
    in a single pass over all of them. *)
Theorem main_is_one_pass_over_all_batches
    (device0 : string) (bert : P) (nelements : list Z)
    (train_loader : Z -> list Batch) :
  let r := main device0 bert nelements train_loader in
  exit r = Py.Return tt ->
  trained r =
    fst (run (main_trainer device0 bert) metrics0
             (all_batches train_loader 0 30))
  /\ saved r =
       Some ("trained_model/bert.pth"%string,
             parameters (model (fst (run (main_trainer device0 bert) metrics0
                                         (all_batches train_loader 0 30))))).
Proof.
  intros r. subst r. unfold main.
  pose proof (epochs_loop_trained train_loader 30
                (main_trainer device0 bert) 0 [parameters_line nelements]
                ltac:(discriminate) eq_refl) as A.
  cbv zeta in A.
  set (r0 := epochs_loop (main_trainer device0 bert) train_loader 0 30
                         [parameters_line nelements]) in *.
  clearbody r0.
  destruct r0 as [tr pr sv [[]|e]]; cbn [exit saved printed trained] in *;
    [|discriminate].
  intros _. rewrite (A eq_refl). split; reflexivity.
Qed.

(** X10. With [log_freq = 500], when [main] returns it has printed the
    line of [__init__], then for each epoch one line per 500 batches begun
    and the summary, then its last line. *)
Theorem main_number_of_lines
    (device0 : string) (bert : P) (nelements : list Z)
    (train_loader : Z -> list Batch) :
  let r := main device0 bert nelements train_loader in
  exit r = Py.Return tt ->
  Z.of_nat (length (printed r)) =
  2 + zsum (map (fun k =>
              (Z.of_nat (length (train_loader (Z.of_nat k))) + 499) / 500
              + 1)
            (seq 0 30)).
Proof.
  intros r. subst r. unfold main.
  pose proof (epochs_loop_count train_loader 30
                (main_trainer device0 bert) 0 [parameters_line nelements]
                ltac:(reflexivity)) as A.
  cbv zeta in A.
  change (log_freq (main_trainer device0 bert)) with 500 in A.
  set (r0 := epochs_loop (main_trainer device0 bert) train_loader 0 30
                         [parameters_line nelements]) in *.
  clearbody r0.
  destruct r0 as [tr pr sv [[]|e]]; cbn [exit saved printed trained] in *;
    [|discriminate].
  intros _. rewrite length_app, Nat2Z.inj_add, (A eq_refl).
  cbn [length].
  rewrite (zsum_ext
    (fun k => (Z.of_nat (length (train_loader (0 + Z.of_nat k))) + 500 - 1)
              / 500 + 1)
    (fun k => (Z.of_nat (length (train_loader (Z.of_nat k))) + 499) / 500
              + 1)).
  { simpl Z.of_nat. lia. }
  intros k _. rewrite Z.add_0_l.
  replace (Z.of_nat (length (train_loader (Z.of_nat k))) + 500 - 1)
    with (Z.of_nat (length (train_loader (Z.of_nat k))) + 499) by lia.
  reflexivity.
Qed.

End Epochs.

(** ** The summaries of [main], and the terms without examples *)

Lemma every_from_none_summary (log_freq : Z) (ls : list Py.fstring) :
  Forall (fun l => is_summary l = false) ls ->
  forall i, filter is_summary (every_from i log_freq ls) = [].
Proof.
  induction 1 as [|l ls Hl _ IH]; intros i; [reflexivity|].
  rewrite every_from_cons, filter_app, IH, app_nil_r.
  destruct (i mod log_freq =? 0); [|reflexivity].
  simpl. rewrite Hl. reflexivity.
Qed.

Section Summaries.
Context {T P O : Type} `{TorchFloat T} `{Network T P O}.
Local Abbreviation trainer := (@BERTTraining P O).

Lemma epochs_loop_summaries (train_loader : Z -> list Batch) (todo : nat) :
  forall (self : trainer) (epoch : Z) (out : list Py.fstring),
    log_freq self <> 0 ->
    let r := epochs_loop self train_loader epoch todo out in
    exit r = Py.Return tt ->
    map first_field (filter is_summary (printed r)) =
    map first_field (filter is_summary out)
    ++ map (fun k => Py.PyInt (epoch + Z.of_nat k)) (seq 0 todo).
Proof.
  induction todo as [|todo IH]; intros self epoch out L;
    cbn [epochs_loop].
  - cbn. intros _. rewrite app_nil_r. reflexivity.
  - destruct (train_cases self epoch (train_loader epoch) L)
      as [[Ok E]|(Bad & _ & R)].
    + rewrite E. cbn [status final_self stdout].
      assert (L' : log_freq (fst (run (started self) metrics0
                                      (train_loader epoch))) <> 0)
        by (rewrite run_log_freq; exact L).
      intros R. rewrite (IH _ (epoch + 1) _ L' R).
      rewrite !filter_app, !map_app. unfold every.
      rewrite every_from_none_summary
        by (apply Forall_forall; intros l Hl; apply in_map_iff in Hl;
            destruct Hl as (k & Hk & _); subst l; reflexivity).
      change (filter is_summary
                [summary_line self epoch (train_loader epoch)])
        with [summary_line self epoch (train_loader epoch)].
      cbn [seq map app]. rewrite Z.add_0_r.
      change (first_field (summary_line self epoch (train_loader epoch)))
        with (Py.PyInt epoch).
      rewrite <- app_assoc. f_equal. cbn [app]. f_equal.
      rewrite <- seq_shift, map_map. apply map_ext. intros k.
      f_equal. lia.
    + rewrite R. cbn [exit]. discriminate.
Qed.

(** X11. When [main] returns it has printed one summary per epoch, and the
    summaries carry the epoch numbers 0 to 29, in this order. *)
Theorem main_summaries_are_numbered
    (device0 : string) (bert : P) (nelements : list Z)
    (train_loader : Z -> list Batch) :
  let r := main device0 bert nelements train_loader in
  exit r = Py.Return tt ->
  map first_field (filter is_summary (printed r)) =
  map (fun k => Py.PyInt (Z.of_nat k)) (seq 0 30).
Proof.
  intros r. subst r. unfold main.
  pose proof (epochs_loop_summaries train_loader 30
                (main_trainer device0 bert) 0 [parameters_line nelements]
                ltac:(discriminate)) as A.
  cbv zeta in A.
  set (r0 := epochs_loop (main_trainer device0 bert) train_loader 0 30
                         [parameters_line nelements]) in *.
  clearbody r0.
  destruct r0 as [tr pr sv [[]|e]]; cbn [exit saved printed trained] in *;
    [|discriminate].
  intros _. rewrite filter_app, map_app, (A eq_refl). cbn [filter is_summary
    parameters_line String.eqb].
  rewrite app_nil_r. reflexivity.
Qed.

Lemma kept_all_ignored (c : CrossEntropyLoss) (input : list (list T))
    (target : list Z) :
  (forall y, In y target -> y = ignore_index c) -> kept c input target = [].
Proof.
  unfold kept. revert target.
  induction input as [|x input IH]; intros [|y target] A; simpl;
    try reflexivity.
  rewrite (A y (or_introl eq_refl)), Z.eqb_refl. simpl.
  apply IH. intros z Hz. apply A. right. exact Hz.
Qed.

(** X12. A term of the loss without any example to average is the empty
    mean, whatever the network outputs: the NSP term of a batch whose
    [is_next] labels are all 0, and the MLM term of a batch without masked
    position, are the sum of no term divided by 0. *)
Theorem all_ignored_term_is_the_empty_mean
    (self : trainer) (data : Batch) (NSP_output : list (list T))
    (MLM_output : list (list (list T))) :
  constructed self ->
  ((forall y, In y (is_next data) -> y = 0) ->
   NSP_loss self NSP_output data = t_div_count (t_sum []) 0)
  /\ ((forall row, In row (mask_ids data) -> forall y, In y row -> y = 0) ->
      MLM_loss self MLM_output data = t_div_count (t_sum []) 0).
Proof.
  intros C. unfold constructed in C. split.
  - intros A. unfold NSP_loss, cross_entropy.
    rewrite kept_all_ignored; [reflexivity|].
    rewrite C. exact A.
  - intros A. unfold MLM_loss, cross_entropy.
    rewrite kept_all_ignored; [reflexivity|].
    rewrite C. intros y Hy. unfold flatten in Hy.
    apply in_concat in Hy. destruct Hy as (row & Hr & Hy).
    exact (A row Hr y Hy).
Qed.

End Summaries.

(** ** The properties at work on the small instance *)

Import Toy.


Lemma nsp_accuracy_counts_every_example_witness :
  length (fst (outputs (Toy.trainer 2) Toy.both)) = length (is_next Toy.both)
  /\ predicted_NSP (fst (outputs (Toy.trainer 2) Toy.both)) 0 = 1
  /\ predicted_NSP (fst (outputs (Toy.trainer 2) Toy.both)) 1 = 0
  /\ total_correct_NSP (update_metrics (Toy.trainer 2) Toy.both metrics0) = 2
  /\ total_element_NSP (update_metrics (Toy.trainer 2) Toy.both metrics0) = 2.
Proof.
  assert (L : length (fst (outputs (Toy.trainer 2) Toy.both))
              = length (is_next Toy.both)) by reflexivity.
  split; [exact L|].
  destruct (nsp_accuracy_counts_every_example
              (Toy.trainer 2) Toy.both metrics0 L) as (A & _ & C & E & _).
  split; [rewrite (A 0%nat 0%float 1%float eq_refl); reflexivity|].
  split; [rewrite (A 1%nat 3%float 2%float eq_refl); reflexivity|].
  rewrite C, E. split; reflexivity.
Defined.

Lemma loss_is_sum_of_two_cross_entropies_witness :
  constructed (Toy.trainer 2)
  /\ batch_loss (Toy.trainer 2) (Toy.batch 2) = 3%float
  /\ nth (0 * 4 + 2) (flatten (mask_ids (Toy.batch 2))) 0 = 5.
Proof.
  assert (C : constructed (Toy.trainer 2)) by reflexivity.
  split; [exact C|].
  destruct (loss_is_sum_of_two_cross_entropies
              (Toy.trainer 2) (Toy.batch 2) C) as (E & N & M & F).
  split.
  - rewrite E, N, M. reflexivity.
  - apply (F 4%nat 0%nat 2%nat).
    + repeat constructor.
    + repeat constructor.
    + apply Nat.ltb_lt. reflexivity.
Defined.

Lemma nsp_loss_ignores_label_zero_witness :
  constructed (Toy.trainer 2)
  /\ (forall y, In y (is_next Toy.pair) -> y = 0 \/ y = 1)
  /\ NSP_loss (Toy.trainer 2) [[0; 1]; [0; 2]]%float Toy.pair = 2%float
  /\ NSP_loss (Toy.trainer 2) [[7; 9]; [0; 2]]%float Toy.pair =
     NSP_loss (Toy.trainer 2) [[0; 1]; [0; 2]]%float Toy.pair.
Proof.
  assert (C : constructed (Toy.trainer 2)) by reflexivity.
  assert (B : forall y, In y (is_next Toy.pair) -> y = 0 \/ y = 1).
  { simpl. intros y [Y|[Y|[]]]; subst y; [left | right]; reflexivity. }
  split; [exact C|]. split; [exact B|].
  destruct (nsp_loss_ignores_label_zero
              (Toy.trainer 2) Toy.pair [[0; 1]; [0; 2]]%float C B)
    as (E & I & _).
  split.
  - rewrite E. reflexivity.
  - apply I; [reflexivity|].
    intros [|[|i]] Hi; simpl in *;
      [contradiction | reflexivity | destruct i; reflexivity].
Defined.

Lemma running_average_is_sum_over_count_witness :
  status (train (Toy.trainer 2) 7 Toy.epoch3) = Py.Return tt
  /\ (1 <= 2 <= length Toy.epoch3)%nat
  /\ map loss_field
         (removelast (stdout (train (with_log_freq (Toy.trainer 2) 1) 7
                                    Toy.epoch3))) =
     [1; 2; 3]%float
  /\ first_field (nth (2 - 1)
                      (stdout (train (with_log_freq (Toy.trainer 2) 1) 7
                                     Toy.epoch3)) []) =
     Py.PyFloat 1.5%float
  /\ map first_field (removelast (stdout (train (Toy.trainer 2) 7
                                               Toy.epoch3))) =
     [Py.PyFloat 1%float; Py.PyFloat 2%float]
  /\ nth 1 (fields (last (stdout (train (Toy.trainer 2) 7 Toy.epoch3)) []))
           (Py.PyInt (-1)) =
     Py.PyFloat 2%float.
Proof.
  assert (R : status (train (Toy.trainer 2) 7 Toy.epoch3) = Py.Return tt)
    by reflexivity.
  assert (N : (1 <= 2 <= length Toy.epoch3)%nat) by (simpl; lia).
  split; [exact R|]. split; [exact N|].
  destruct (running_average_is_sum_over_count (Toy.trainer 2) 7 Toy.epoch3 R)
    as (_ & Ls & _ & A & Sub & _ & Tot & _).
  split; [rewrite Ls; reflexivity|].
  split; [rewrite (A 2%nat N), Ls; reflexivity|].
  split; [rewrite Sub; reflexivity|].
  rewrite Tot, Ls. reflexivity.
Defined.

Lemma log_line_every_log_freq_witness :
  status (train (Toy.trainer 2) 7 Toy.epoch3) = Py.Return tt
  /\ map (fun l => nth 0 (fields l) (Py.PyInt 0))
         (stdout (train (Toy.trainer 2) 7 Toy.epoch3)) =
     [Py.PyFloat 1%float; Py.PyFloat 2%float; Py.PyInt 7]
  /\ map (fun l => nth 0 (fields l) (Py.PyInt 0))
         (stdout (train (Toy.trainer 1) 7 Toy.epoch3)) =
     [Py.PyFloat 1%float; Py.PyFloat 1.5%float; Py.PyFloat 2%float;
      Py.PyInt 7]
  /\ map (fun l => nth 0 (fields l) (Py.PyInt 0))
         (stdout (train (Toy.trainer 500) 7 Toy.epoch3)) =
     [Py.PyFloat 1%float; Py.PyInt 7]
  /\ (nth 1 (stdout (train (Toy.trainer 2) 7 Toy.epoch3)) [] =
      summary_line (Toy.trainer 2) 7 Toy.epoch3
      \/ exists i, (i < length Toy.epoch3)%nat
                   /\ Z.of_nat i mod log_freq (Toy.trainer 2) = 0
                   /\ nth 1 (stdout (train (Toy.trainer 2) 7 Toy.epoch3)) []
                      = line_at (Toy.trainer 2) Toy.epoch3 i).
Proof.
  assert (R2 : status (train (Toy.trainer 2) 7 Toy.epoch3) = Py.Return tt)
    by reflexivity.
  assert (R1 : status (train (Toy.trainer 1) 7 Toy.epoch3) = Py.Return tt)
    by reflexivity.
  assert (R500 : status (train (Toy.trainer 500) 7 Toy.epoch3)
                 = Py.Return tt) by reflexivity.
  split; [exact R2|].
  split; [|split; [|split]].
  - destruct (log_line_every_log_freq (Toy.trainer 2) 7 Toy.epoch3)
      as (_ & A & _).
    destruct (A R2) as (E & _). rewrite E. reflexivity.
  - destruct (log_line_every_log_freq (Toy.trainer 1) 7 Toy.epoch3)
      as (_ & A & _).
    destruct (A R1) as (_ & E & _). rewrite (E eq_refl). reflexivity.
  - destruct (log_line_every_log_freq (Toy.trainer 500) 7 Toy.epoch3)
      as (_ & A & _).
    destruct (A R500) as (_ & _ & E).
    rewrite E; [reflexivity|]. apply Z.ltb_lt. reflexivity.
  - destruct (log_line_every_log_freq (Toy.trainer 2) 7 Toy.epoch3)
      as (Only & _).
    apply Only. right. left. reflexivity.
Defined.

Lemma log_lines_have_the_specified_formats_witness :
  let m := update_metrics (Toy.trainer 2) (Toy.batch 0) metrics0 in
  batch_line 0 m 1%float = Py.Return (logged_line 0 m 1%float)
  /\ shape (logged_line 0 m 1%float) = format_shape batch_format
  /\ epoch_line 7 1 m =
     Py.Return (summary_line (Toy.trainer 2) 7 [Toy.batch 0])
  /\ shape (summary_line (Toy.trainer 2) 7 [Toy.batch 0]) =
     format_shape epoch_format.
Proof.
  intros m.
  assert (B : batch_line 0 m 1%float = Py.Return (logged_line 0 m 1%float))
    by reflexivity.
  assert (E : epoch_line 7 1 m =
              Py.Return (summary_line (Toy.trainer 2) 7 [Toy.batch 0]))
    by reflexivity.
  split; [exact B|].
  destruct (@log_lines_have_the_specified_formats float Z unit _ _)
    as (FB & FE & _).
  split; [apply (FB 0 m 1%float _ B)|].
  split; [exact E|]. apply (FE 7 1 m _ E).
Defined.


Lemma empty_data_source_raises_witness :
  training (model (started (Toy.trainer 2))) = true
  /\ final_self (train (started (Toy.trainer 2)) 7 []) =
     started (Toy.trainer 2)
  /\ status (train (started (Toy.trainer 2)) 7 []) =
     Py.Raise Py.ZeroDivisionError.
Proof.
  assert (Tr : training (model (started (Toy.trainer 2))) = true)
    by reflexivity.
  split; [exact Tr|].
  destruct (empty_data_source_raises (started (Toy.trainer 2)) 7)
    as (_ & R & _ & _ & _ & _ & S & _).
  split; [exact (S Tr) | exact R].
Defined.


(** C6, as the specification has it, fails: with [log_freq = 1] every index
    is a multiple of the log frequency, index 0 included, yet when the first
    batch has no masked position the call prints no line at all, for index
    0 or any other: computing the line of index 0 raises. *)
Lemma first_line_is_not_printed_when_it_raises :
  let r := train (Toy.trainer 1) 7 (Toy.unmasked :: Toy.epoch3) in
  0 mod log_freq (Toy.trainer 1) = 0
  /\ stdout r = []
  /\ status r = Py.Raise Py.ZeroDivisionError
  /\ ~ (forall i, (i < length (Toy.unmasked :: Toy.epoch3))%nat ->
                  Z.of_nat i mod log_freq (Toy.trainer 1) = 0 ->
                  exists line, In line (stdout r)).
Proof.
  intros r. subst r.
  split; [reflexivity|]. split; [reflexivity|]. split; [reflexivity|].
  intros A. destruct (A 0%nat ltac:(simpl; lia) eq_refl) as [line []].
Qed.

Lemma first_batch_ok_epoch3 : first_batch_ok Toy.epoch3.
Proof.
  simpl. split; [discriminate|].
  apply Exists_cons_hd.
  apply Exists_cons_tl, Exists_cons_tl, Exists_cons_hd. discriminate.
Defined.

Lemma toy_accepts (c : Z) :
  torch_accepts (fst (outputs (Toy.trainer 2) (Toy.batch c)))
                (snd (outputs (Toy.trainer 2) (Toy.batch c))) (Toy.batch c).
Proof.
  unfold torch_accepts. simpl.
  split; [repeat (constructor; try (simpl; lia))|].
  split; [repeat (constructor; try (simpl; lia))|].
  split; [exists 2%nat; repeat constructor|].
  split; [exists 4%nat; repeat constructor|].
  exists 8%nat. repeat constructor.
Qed.

Lemma toy_accepted (l : list Batch) :
  Forall (fun d => In d Toy.epoch3) l ->
  forall self : @BERTTraining Z unit, accepted self l.
Proof.
  induction 1 as [|d l Hd _ IH]; intros self; simpl; [exact I|].
  split; [|apply IH].
  destruct Hd as [E|[E|[E|[]]]]; subst d; apply toy_accepts.
Qed.

Lemma train_returns_iff_witness :
  accepted (started (Toy.trainer 2)) Toy.epoch3
  /\ log_freq (Toy.trainer 2) <> 0
  /\ first_batch_ok Toy.epoch3
  /\ status (train (Toy.trainer 2) 7 Toy.epoch3) = Py.Return tt.
Proof.
  assert (A : accepted (started (Toy.trainer 2)) Toy.epoch3).
  { apply toy_accepted. apply Forall_forall. intros d Hd. exact Hd. }
  assert (L : log_freq (Toy.trainer 2) <> 0) by discriminate.
  split; [exact A|]. split; [exact L|].
  split; [exact first_batch_ok_epoch3|].
  destruct (train_returns_iff (Toy.trainer 2) 7 Toy.epoch3) as [_ B].
  destruct (B A) as [R _].
  apply R. split; [exact L | exact first_batch_ok_epoch3].
Defined.

Lemma train_keeps_settings_witness :
  Toy.trainer 2 =
    init {| parameters := 0; training := false |}
         PrimFloat.one PrimFloat.zero (PrimFloat.one, PrimFloat.one) 2 "cpu"
  /\ constructed (final_self (train (Toy.trainer 2) 7 Toy.epoch3))
  /\ log_freq (final_self (train (Toy.trainer 2) 7 Toy.epoch3)) = 2.
Proof.
  split; [reflexivity|].
  destruct (train_keeps_settings (Toy.trainer 2) 7 Toy.epoch3)
    as (S & _ & C).
  split.
  - apply (C _ _ _ _ _ _ eq_refl).
  - exact (f_equal (fun s => snd (fst (fst s))) S).
Defined.

Lemma number_of_lines_printed_witness :
  0 < log_freq (Toy.trainer 2)
  /\ status (train (Toy.trainer 2) 7 Toy.epoch3) = Py.Return tt
  /\ Z.of_nat (length (stdout (train (Toy.trainer 2) 7 Toy.epoch3))) = 3.
Proof.
  assert (L : 0 < log_freq (Toy.trainer 2)) by reflexivity.
  assert (R : status (train (Toy.trainer 2) 7 Toy.epoch3) = Py.Return tt)
    by reflexivity.
  split; [exact L|]. split; [exact R|].
  rewrite (number_of_lines_printed (Toy.trainer 2) 7 Toy.epoch3 L R).
  reflexivity.
Defined.

Lemma log_freq_only_changes_the_lines_witness :
  2 <> 0 /\ 500 <> 0
  /\ status (train (with_log_freq (Toy.trainer 1) 2) 7 Toy.epoch3)
     = Py.Return tt
  /\ final_metrics (train (with_log_freq (Toy.trainer 1) 2) 7 Toy.epoch3) =
     final_metrics (train (with_log_freq (Toy.trainer 1) 500) 7 Toy.epoch3)
  /\ last (stdout (train (with_log_freq (Toy.trainer 1) 2) 7 Toy.epoch3))
          [] =
     last (stdout (train (with_log_freq (Toy.trainer 1) 500) 7 Toy.epoch3))
          [].
Proof.
  assert (A : 2 <> 0) by discriminate.
  assert (B : 500 <> 0) by discriminate.
  assert (R : status (train (with_log_freq (Toy.trainer 1) 2) 7 Toy.epoch3)
              = Py.Return tt) by reflexivity.
  split; [exact A|]. split; [exact B|]. split; [exact R|].
  destruct (log_freq_only_changes_the_lines
              (Toy.trainer 1) 2 500 7 Toy.epoch3 A B)
    as (_ & M & _ & _ & Last).
  split; [exact M | exact (Last R)].
Defined.

Lemma denominators_are_data_totals_witness :
  status (train (Toy.trainer 2) 7 [Toy.pair; Toy.batch 1]) = Py.Return tt
  /\ total_element_NSP
       (final_metrics (train (Toy.trainer 2) 7 [Toy.pair; Toy.batch 1])) = 3
  /\ total_element_MLM
       (final_metrics (train (Toy.trainer 2) 7 [Toy.pair; Toy.batch 1])) = 3.
Proof.
  assert (R : status (train (Toy.trainer 2) 7 [Toy.pair; Toy.batch 1])
              = Py.Return tt) by reflexivity.
  split; [exact R|].
  destruct (denominators_are_data_totals
              (Toy.trainer 2) 7 [Toy.pair; Toy.batch 1]) as [_ A].
  destruct (A R) as [N M]. rewrite N, M. split; reflexivity.
Defined.

Lemma main_saves_iff_every_epoch_trains_witness :
  accepted (main_trainer "cpu" 0) (all_batches Toy.loader 0 30)
  /\ (forall k, (k < 30)%nat -> first_batch_ok (Toy.loader (Z.of_nat k)))
  /\ exit (main "cpu" 0 [3; 4] Toy.loader) = Py.Return tt
  /\ last (printed (main "cpu" 0 [3; 4] Toy.loader)) [] =
     [Py.Lit "Training completed"]
  /\ exit (main "cpu" 0 [3; 4] Toy.loader_failing) <> Py.Return tt
  /\ saved (main "cpu" 0 [3; 4] Toy.loader_failing) = None.
Proof.
  assert (Acc : accepted (main_trainer "cpu" 0)
                         (all_batches Toy.loader 0 30)).
  { apply toy_accepted. apply Forall_forall. intros d Hd.
    unfold all_batches in Hd. apply in_concat in Hd.
    destruct Hd as (l & Hl & Hd). apply in_map_iff in Hl.
    destruct Hl as (k & Hk & _). subst l. exact Hd. }
  assert (A : forall k, (k < 30)%nat ->
                        first_batch_ok (Toy.loader (Z.of_nat k))).
  { intros k _. exact first_batch_ok_epoch3. }
  split; [exact Acc|]. split; [exact A|].
  destruct (main_saves_iff_every_epoch_trains "cpu" 0 [3; 4] Toy.loader)
    as (Ret & _ & Enough).
  destruct (Enough Acc) as [R _].
  split; [exact (R A)|].
  destruct (Ret (R A)) as (_ & _ & Last).
  split; [exact Last|].
  assert (N : exit (main "cpu" 0 [3; 4] Toy.loader_failing)
              <> Py.Return tt) by (vm_compute; discriminate).
  split; [exact N|].
  destruct (main_saves_iff_every_epoch_trains
              "cpu" 0 [3; 4] Toy.loader_failing) as (_ & F & _).
  apply (F N).
Defined.

Lemma main_is_one_pass_over_all_batches_witness :
  exit (main "cpu" 0 [3; 4] Toy.loader) = Py.Return tt
  /\ saved (main "cpu" 0 [3; 4] Toy.loader) =
     Some ("trained_model/bert.pth"%string, 90).
Proof.
  assert (R : exit (main "cpu" 0 [3; 4] Toy.loader) = Py.Return tt)
    by (vm_compute; reflexivity).
  split; [exact R|].
  destruct (main_is_one_pass_over_all_batches "cpu" 0 [3; 4] Toy.loader R)
    as [_ S].
  rewrite S. vm_compute. reflexivity.
Defined.

Lemma main_number_of_lines_witness :
  exit (main "cpu" 0 [3; 4] Toy.loader) = Py.Return tt
  /\ Z.of_nat (length (printed (main "cpu" 0 [3; 4] Toy.loader))) = 62.
Proof.
  assert (R : exit (main "cpu" 0 [3; 4] Toy.loader) = Py.Return tt)
    by (vm_compute; reflexivity).
  split; [exact R|].
  rewrite (main_number_of_lines "cpu" 0 [3; 4] Toy.loader R).
  reflexivity.
Defined.

Lemma main_summaries_are_numbered_witness :
  exit (main "cpu" 0 [3; 4] Toy.loader) = Py.Return tt
  /\ length (filter is_summary (printed (main "cpu" 0 [3; 4] Toy.loader)))
     = 30%nat.
Proof.
  assert (R : exit (main "cpu" 0 [3; 4] Toy.loader) = Py.Return tt)
    by (vm_compute; reflexivity).
  split; [exact R|].
  rewrite <- (length_map first_field).
  rewrite (main_summaries_are_numbered "cpu" 0 [3; 4] Toy.loader R).
  reflexivity.
Defined.

Lemma all_ignored_term_is_the_empty_mean_witness :
  constructed (Toy.trainer 2)
  /\ (forall row, In row (mask_ids Toy.unmasked) ->
      forall y, In y row -> y = 0)
  /\ PrimFloat.is_nan
       (MLM_loss (Toy.trainer 2)
                 (snd (outputs (Toy.trainer 2) Toy.unmasked)) Toy.unmasked)
     = true.
Proof.
  assert (C : constructed (Toy.trainer 2)) by reflexivity.
  assert (A : forall row, In row (mask_ids Toy.unmasked) ->
                          forall y, In y row -> y = 0).
  { simpl. intros row [R|[]] y Hy. subst row. simpl in Hy.
    destruct Hy as [Y|[Y|[Y|[Y|[]]]]]; subst y; reflexivity. }
  split; [exact C|]. split; [exact A|].
  destruct (all_ignored_term_is_the_empty_mean
              (Toy.trainer 2) Toy.unmasked []
              (snd (outputs (Toy.trainer 2) Toy.unmasked)) C) as [_ M].
  rewrite (M A). reflexivity.
Defined.
